(** * Report generation route: a shallow embedding and its properties

    The development follows the report route handler (the [POST] function
    together with [generateWithGemini], [generateWithOpenAI],
    [generateWithAnthropic] and the inner [generateSystemPrompt]) and its
    two sibling routes, the search route and the content route.

    Conventions of the embedding.
    - Text is a byte string ([string]); a JavaScript [undefined] is [None].
    - A JSON document is a tree ([json]); an object is an association list
      with unique keys in insertion order.  [JSON.parse] accepts the texts
      the language accepts.  Of the value it builds, the model keeps the
      lexeme of a number (not its double), the members of an object in the
      order of the text (the language lists integer-like keys first), and
      each [\u] escape as a code unit of its own (a surrogate pair is not
      joined).
    - The configuration object [CONFIG], the rate limiter and the three
      provider SDKs are not defined in the handler; they are the fields of
      an environment [Env].
    - Statements complete normally, by [return] or by [throw]; effects on the
      outside world (limiter, provider calls, log file lines) are recorded in
      a trace.  Console output and clock readings are not modelled.
    - Appending to a log file can throw; the handlers take the file system
      as a parameter.  [handle] is the run of a handler on a file system
      where every append succeeds, [run] the run on any file system. *)

From Stdlib Require Import String Ascii List Bool Arith NArith Lia.
From Stdlib Require Import DecimalString.
From stdpp Require Import gmap strings.
Import ListNotations.

Local Open Scope string_scope.

(** ** Characters and strings *)

Definition dquote_char : ascii := "034"%char.
Definition backslash_char : ascii := "092"%char.
Definition newline_char : ascii := "010"%char.
Definition open_brace : ascii := "{"%char.
Definition close_brace : ascii := "}"%char.

Definition str1 (c : ascii) : string := String c EmptyString.
Definition dq : string := str1 dquote_char.
Definition nl : string := str1 newline_char.

(** [s] occurs in [t] as a contiguous block. *)
Definition occurs_in (s t : string) : Prop :=
  exists pre post, t = pre +:+ s +:+ post.

(** The character [c] does not occur in [s]. *)
Fixpoint lacks (c : ascii) (s : string) : bool :=
  match s with
  | EmptyString => true
  | String d r => negb (Ascii.eqb d c) && lacks c r
  end.

(** ** JSON documents *)

#[local] Unset Elimination Schemes.

Inductive json : Type :=
| JNull
| JBool (b : bool)
| JNumber (lexeme : string)
| JString (s : string)
| JArray (items : list json)
| JObject (fields : list (string * json)).

#[local] Set Elimination Schemes.

(** Property read [o[k]] on the fields of an object. *)
Fixpoint obj_get (k : string) (o : list (string * json)) : option json :=
  match o with
  | [] => None
  | (k', v) :: r => if String.eqb k k' then Some v else obj_get k r
  end.

(** Property write [o[k] = v]: an existing key keeps its place. *)
Fixpoint obj_set (k : string) (v : json) (o : list (string * json))
  : list (string * json) :=
  match o with
  | [] => [(k, v)]
  | (k', v') :: r =>
      if String.eqb k k' then (k, v) :: r else (k', v') :: obj_set k v r
  end.

Fixpoint obj_delete (k : string) (o : list (string * json))
  : list (string * json) :=
  match o with
  | [] => []
  | (k', v') :: r =>
      if String.eqb k k' then obj_delete k r else (k', v') :: obj_delete k r
  end.


(** ** [JSON.parse]

    The parser of the language, on byte strings: white space, the three
    literals, numbers, strings with their escapes, arrays and objects. *)

Module JSON.

Definition is_ws (c : ascii) : bool :=
  Ascii.eqb c " " || Ascii.eqb c "009" || Ascii.eqb c "010" || Ascii.eqb c "013".

Fixpoint skip_ws (s : string) : string :=
  match s with
  | String c r => if is_ws c then skip_ws r else s
  | EmptyString => s
  end.

Definition is_digit (c : ascii) : bool :=
  let n := N_of_ascii c in (48 <=? n)%N && (n <=? 57)%N.

Definition hex_val (c : ascii) : option N :=
  let n := N_of_ascii c in
  if (48 <=? n)%N && (n <=? 57)%N then Some (n - 48)%N
  else if (65 <=? n)%N && (n <=? 70)%N then Some (n - 55)%N
  else if (97 <=? n)%N && (n <=? 102)%N then Some (n - 87)%N
  else None.

Definition hex4 (a b c d : ascii) : option N :=
  match hex_val a, hex_val b, hex_val c, hex_val d with
  | Some x, Some y, Some z, Some w => Some (((x * 16 + y) * 16 + z) * 16 + w)%N
  | _, _, _, _ => None
  end.

(** An escaped code unit is stored as the bytes of its UTF-8 form. *)
Definition code_unit_bytes (n : N) : string :=
  if (n <? 128)%N then str1 (ascii_of_N n)
  else if (n <? 2048)%N then
    String (ascii_of_N (192 + n / 64)) (str1 (ascii_of_N (128 + n mod 64)))
  else
    String (ascii_of_N (224 + n / 4096))
      (String (ascii_of_N (128 + (n / 64) mod 64))
         (str1 (ascii_of_N (128 + n mod 64)))).

Definition simple_escape (e : ascii) : option ascii :=
  if Ascii.eqb e dquote_char then Some dquote_char
  else if Ascii.eqb e backslash_char then Some backslash_char
  else if Ascii.eqb e "/" then Some "/"%char
  else if Ascii.eqb e "b" then Some "008"%char
  else if Ascii.eqb e "f" then Some "012"%char
  else if Ascii.eqb e "n" then Some "010"%char
  else if Ascii.eqb e "r" then Some "013"%char
  else if Ascii.eqb e "t" then Some "009"%char
  else None.

Definition prepend (p : string) (r : option (string * string))
  : option (string * string) :=
  match r with
  | Some (s, rest) => Some (p +:+ s, rest)
  | None => None
  end.

(** The characters of a string literal, after its opening quote, up to the
    closing quote; the second component is the text that follows. *)
Fixpoint parse_chars (s : string) : option (string * string) :=
  match s with
  | EmptyString => None
  | String c r =>
      if Ascii.eqb c dquote_char then Some (EmptyString, r)
      else if Ascii.eqb c backslash_char then
        match r with
        | EmptyString => None
        | String e r' =>
            if Ascii.eqb e "u" then
              match r' with
              | String h1 (String h2 (String h3 (String h4 r''))) =>
                  match hex4 h1 h2 h3 h4 with
                  | Some n => prepend (code_unit_bytes n) (parse_chars r'')
                  | None => None
                  end
              | _ => None
              end
            else
              match simple_escape e with
              | Some ch => prepend (str1 ch) (parse_chars r')
              | None => None
              end
        end
      else if (N_of_ascii c <? 32)%N then None
      else prepend (str1 c) (parse_chars r)
  end.

Fixpoint span_digits (s : string) : string * string :=
  match s with
  | String c r =>
      if is_digit c then let (ds, rest) := span_digits r in (String c ds, rest)
      else (EmptyString, s)
  | EmptyString => (EmptyString, s)
  end.

(** One or more digits. *)
Definition digits1 (s : string) : option (string * string) :=
  match span_digits s with
  | (EmptyString, _) => None
  | (ds, rest) => Some (ds, rest)
  end.

Definition parse_int (s : string) : option (string * string) :=
  match s with
  | String c r =>
      if Ascii.eqb c "0" then Some ("0", r)
      else if is_digit c then
        let (ds, rest) := span_digits r in Some (String c ds, rest)
      else None
  | EmptyString => None
  end.

(** [eat c s] is what follows [c] when [s] starts with it. *)
Definition eat (c : ascii) (s : string) : option string :=
  match s with
  | String d r => if Ascii.eqb d c then Some r else None
  | EmptyString => None
  end.

Definition parse_frac (s : string) : option (string * string) :=
  match eat "." s with
  | Some r => prepend "." (digits1 r)
  | None => Some (EmptyString, s)
  end.

Definition parse_exp (s : string) : option (string * string) :=
  match s with
  | String c r =>
      if Ascii.eqb c "e" || Ascii.eqb c "E" then
        match r with
        | String sg r' =>
            if Ascii.eqb sg "+" || Ascii.eqb sg "-" then
              prepend (String c (str1 sg)) (digits1 r')
            else prepend (str1 c) (digits1 r)
        | EmptyString => None
        end
      else Some (EmptyString, s)
  | EmptyString => Some (EmptyString, s)
  end.

Definition parse_number (s : string) : option (string * string) :=
  let '(sign, s0) :=
    match eat "-" s with
    | Some r => ("-", r)
    | None => (EmptyString, s)
    end in
  match parse_int s0 with
  | None => None
  | Some (i, s1) =>
      match parse_frac s1 with
      | None => None
      | Some (f, s2) =>
          match parse_exp s2 with
          | None => None
          | Some (e, s3) => Some (sign +:+ i +:+ f +:+ e, s3)
          end
      end
  end.

(** [strip_prefix p s] is what follows [p] in [s]. *)
Fixpoint strip_prefix (p s : string) : option string :=
  match p with
  | EmptyString => Some s
  | String c p' =>
      match s with
      | String d s' => if Ascii.eqb c d then strip_prefix p' s' else None
      | EmptyString => None
      end
  end.

(** A repeated member name keeps its first place and its last value. *)
Definition members_to_object (ms : list (string * json)) : json :=
  JObject (fold_left (fun o kv => obj_set (fst kv) (snd kv) o) ms []).

(** The three mutually recursive productions; [fuel] bounds the depth of
    the calls.  Every function expects its input free of leading white
    space. *)
Fixpoint parse_value (fuel : nat) (s : string) : option (json * string) :=
  match fuel with
  | O => None
  | S f =>
      match s with
      | EmptyString => None
      | String c r =>
          if Ascii.eqb c open_brace then
            match eat close_brace (skip_ws r) with
            | Some r1 => Some (JObject [], r1)
            | None =>
                match parse_members f (skip_ws r) with
                | Some (ms, rest) => Some (members_to_object ms, rest)
                | None => None
                end
            end
          else if Ascii.eqb c "[" then
            match eat "]" (skip_ws r) with
            | Some r1 => Some (JArray [], r1)
            | None =>
                match parse_elements f (skip_ws r) with
                | Some (vs, rest) => Some (JArray vs, rest)
                | None => None
                end
            end
          else if Ascii.eqb c dquote_char then
            match parse_chars r with
            | Some (str, rest) => Some (JString str, rest)
            | None => None
            end
          else if Ascii.eqb c "t" then
            option_map (fun rest => (JBool true, rest)) (strip_prefix "rue" r)
          else if Ascii.eqb c "f" then
            option_map (fun rest => (JBool false, rest)) (strip_prefix "alse" r)
          else if Ascii.eqb c "n" then
            option_map (fun rest => (JNull, rest)) (strip_prefix "ull" r)
          else
            match parse_number s with
            | Some (lex, rest) => Some (JNumber lex, rest)
            | None => None
            end
      end
  end
with parse_elements (fuel : nat) (s : string) : option (list json * string) :=
  match fuel with
  | O => None
  | S f =>
      match parse_value f s with
      | None => None
      | Some (v, r) =>
          match eat "," (skip_ws r) with
          | Some r1 =>
              match parse_elements f (skip_ws r1) with
              | Some (vs, rest) => Some (v :: vs, rest)
              | None => None
              end
          | None =>
              match eat "]" (skip_ws r) with
              | Some r1 => Some ([v], r1)
              | None => None
              end
          end
      end
  end
with parse_members (fuel : nat) (s : string)
  : option (list (string * json) * string) :=
  match fuel with
  | O => None
  | S f =>
      match eat dquote_char s with
      | None => None
      | Some r =>
          match parse_chars r with
          | None => None
          | Some (k, r1) =>
              match eat ":" (skip_ws r1) with
              | None => None
              | Some r2 =>
                  match parse_value f (skip_ws r2) with
                  | None => None
                  | Some (v, r3) =>
                      match eat "," (skip_ws r3) with
                      | Some r4 =>
                          match parse_members f (skip_ws r4) with
                          | Some (ms, rest) => Some ((k, v) :: ms, rest)
                          | None => None
                          end
                      | None =>
                          match eat close_brace (skip_ws r3) with
                          | Some r4 => Some ([(k, v)], r4)
                          | None => None
                          end
                      end
                  end
              end
          end
      end
  end.

(** [JSON.parse text]: [None] stands for the [SyntaxError].  Of two
    nested calls in a row at least one takes a character off the text, so
    the calls never nest deeper than twice the length of the text plus
    two. *)
Definition parse (text : string) : option json :=
  match parse_value (2 * String.length text + 2) (skip_ws text) with
  | Some (v, rest) =>
      match skip_ws rest with
      | EmptyString => Some v
      | _ => None
      end
  | None => None
  end.

End JSON.

(** ** The regular expression [/\{[\s\S]*\}/] and [split('__')] *)

(** Longest prefix of [s] that ends in a closing brace: the greedy
    [[\s\S]*\}] tried at the start of [s]. *)
Fixpoint through_last_close (s : string) : option string :=
  match s with
  | EmptyString => None
  | String c r =>
      match through_last_close r with
      | Some t => Some (String c t)
      | None => if Ascii.eqb c close_brace then Some (str1 c) else None
      end
  end.

(** [response.match(/\{[\s\S]*\}/)?.[0]]: the match is tried at every
    position from the left. *)
Fixpoint jsonMatch (response : string) : option string :=
  match response with
  | EmptyString => None
  | String c r =>
      if Ascii.eqb c open_brace then
        match through_last_close r with
        | Some t => Some (String c t)
        | None => jsonMatch r
        end
      else jsonMatch r
  end.

Definition cons_char (c : ascii) (segs : list string) : list string :=
  match segs with
  | seg :: rest => String c seg :: rest
  | [] => [str1 c]
  end.

(** [s.split('__')] *)
Fixpoint split_dunder (s : string) : list string :=
  match s with
  | EmptyString => [EmptyString]
  | String c r =>
      match r with
      | String d r' =>
          if Ascii.eqb c "_" && Ascii.eqb d "_"
          then EmptyString :: split_dunder r'
          else cons_char c (split_dunder r)
      | EmptyString => cons_char c (split_dunder r)
      end
  end.

(** What a template literal prints for a string that may be [undefined]. *)
Definition display (s : option string) : string :=
  match s with
  | Some t => t
  | None => "undefined"
  end.

(** ** Configuration, requests and responses *)

(** [CONFIG] is imported by the handler and not defined in it: it is a
    parameter of the model.  Its two objects that are read by name,
    [CONFIG.platforms] and the [models] of a platform, are finite maps; a
    name is in the map when the read of that property yields an entry. *)
Record ModelConfig := { model_enabled : bool }.

Record PlatformConfig := {
  platform_enabled : bool;
  models : gmap string ModelConfig
}.

Record Config := {
  rateLimits_enabled : bool;
  platforms : gmap string PlatformConfig
}.

(** An article, with the three fields the prompt template reads. *)
Record Article := { title : string; url : string; content : string }.

(** The request body after destructuring: an absent field is [None], and a
    field that is present has the type the handler declares for it. *)
Record Body := {
  selectedResults : option (list Article);
  sources : option json;
  prompt : option string;
  platformModel : option string
}.

(** [None]: [request.json()] rejects, or yields a value that cannot be
    destructured. *)
Definition Request := option Body.

Record Response := { status : nat; body : json }.

(** [NextResponse.json({ error: message }, { status })] *)
Definition error_response (message : string) (st : nat) : Response :=
  {| status := st; body := JObject [("error", JString message)] |}.

(** [NextResponse.json(data)] *)
Definition ok_response (data : json) : Response :=
  {| status := 200; body := data |}.

(** ** The outside world *)

Inductive GeminiClient :=
| geminiModel
| geminiFlashModel
| geminiFlashThinkingModel.

(** Outcome of a provider SDK call followed by the read of the completion
    text from its response. *)
Inductive SdkResult (A : Type) :=
| Rejected
| Unreadable
| Got (text : A).

Arguments Rejected {A}.
Arguments Unreadable {A}.
Arguments Got {A} text.

Record Env := {
  CONFIG : Config;
  (** [reportContentRatelimit.limit('report')]: the [success] flag, or
      [None] when the call rejects *)
  ratelimit_limit : option bool;
  (** [client.generateContent(prompt)] then [result.response.text()] *)
  gemini_generateContent : GeminiClient -> string -> SdkResult string;
  (** [openai.chat.completions.create] for a model and a user message, then
      [response.choices[0].message.content] (which may be [null]) *)
  openai_create : string -> string -> SdkResult (option string);
  (** [anthropic.messages.create] for a model, [max_tokens], [temperature]
      and a user message, then [response.content[0].text] *)
  anthropic_create : string -> nat -> string -> string -> SdkResult (option string)
}.

(** What is thrown: by [request.json()] or the destructuring of its
    result, by the rate limiter, by a provider SDK, by the language (a
    property read on [undefined], a text that is not JSON), and by
    [throw new Error(message)]. *)
Inductive Exn :=
| BodyError
| LimiterError
| ProviderError
| TypeError
| SyntaxError
| Error (message : string).

(** The lines written by [logTimeToFile] and [logResponseToFile]; the
    durations they print are left out. *)
Inductive LogLine :=
| RateLimitTime
| GeminiTime (model : string)
| OpenAITime (model : string)
| AnthropicTime (model : string)
| ModelGenerationTime (model : option string)
| TotalTime
| SdkResponse
| ModelResponse (text : string)
| GenerationError (e : Exn).

(** What a request does to the outside world. *)
Inductive Event :=
| RateLimitConsulted
| GeminiCalled (client : GeminiClient) (prompt : string)
| OpenAICalled (model : string) (prompt : string)
| AnthropicCalled (model : string) (max_tokens : nat) (temperature : string)
    (prompt : string)
| Logged (line : LogLine).

Definition is_adapter_call (e : Event) : bool :=
  match e with
  | GeminiCalled _ _ | OpenAICalled _ _ | AnthropicCalled _ _ _ _ => true
  | _ => false
  end.

Definition is_limiter_call (e : Event) : bool :=
  match e with
  | RateLimitConsulted => true
  | _ => false
  end.

Definition adapter_calls (tr : list Event) : nat :=
  List.length (List.filter is_adapter_call tr).

Definition limiter_calls (tr : list Event) : nat :=
  List.length (List.filter is_limiter_call tr).

(** ** Statements: completions and traces *)

Inductive Completion (A : Type) :=
| Normal (a : A)
| Return (r : Response)
| Throw (e : Exn).

Arguments Normal {A} a.
Arguments Return {A} r.
Arguments Throw {A} e.

(** A statement takes the trace so far and gives its completion and the
    trace it leaves. *)
Definition M (A : Type) : Type := list Event -> Completion A * list Event.

Definition ret {A} (a : A) : M A := fun tr => (Normal a, tr).

Definition bind {A B} (m : M A) (k : A -> M B) : M B :=
  fun tr =>
    match m tr with
    | (Normal a, tr') => k a tr'
    | (Return r, tr') => (Return r, tr')
    | (Throw e, tr') => (Throw e, tr')
    end.

Definition emit (e : Event) : M unit := fun tr => (Normal tt, (tr ++ [e])%list).

Definition throw {A} (e : Exn) : M A := fun tr => (Throw e, tr).

Definition return_ {A} (r : Response) : M A := fun tr => (Return r, tr).

(** [try { m } catch (error) { handler error }] *)
Definition try_catch {A} (m : M A) (handler : Exn -> M A) : M A :=
  fun tr =>
    match m tr with
    | (Throw e, tr') => handler e tr'
    | other => other
    end.

(** [try { m } finally { fin }]: a completion of [fin] that is not normal
    takes the place of the completion of [m]. *)
Definition try_finally {A} (m : M A) (fin : M unit) : M A :=
  fun tr =>
    match m tr with
    | (c, tr') =>
        match fin tr' with
        | (Normal _, tr'') => (c, tr'')
        | (Return r, tr'') => (Return r, tr'')
        | (Throw e, tr'') => (Throw e, tr'')
        end
    end.

Declare Scope stmt_scope.
Delimit Scope stmt_scope with stmt.

Notation "x <- m ;; k" := (bind m (fun x => k))
  (at level 100, m at next level, right associativity) : stmt_scope.
Notation "m ;; k" := (bind m (fun _ => k))
  (at level 100, right associativity) : stmt_scope.

Local Open Scope stmt_scope.

(** ** The log files *)

Section Files.

Context {Ev Line : Type}.

(** The file system, as far as the handlers use it: for a file, a line to
    append and what the request has done so far, either the append
    succeeds ([None]) or it throws an error, as it does when the directory
    of the log files is missing or the file cannot be written. *)
Definition FileSystem : Type := string -> Line -> list Ev -> option Exn.

(** A file system where every append succeeds. *)
Definition writable : FileSystem := fun _ _ _ => None.

(** [fs.appendFileSync(path, line)]: an append that succeeds leaves the
    line in the trace (as the event [logged line]). *)
Definition appendFileSync (fs : FileSystem) (logged : Line -> Ev)
  (path : string) (line : Line) : list Ev -> Completion unit * list Ev :=
  fun tr =>
    match fs path line tr with
    | None => (Normal tt, (tr ++ [logged line])%list)
    | Some e => (Throw e, tr)
    end.

End Files.

Arguments FileSystem : clear implicits.


(** The rest of an adapter after its SDK call: a call that rejects throws
    at once; otherwise the log lines are written ([after_call]) and the
    completion text is read from the response. *)
Definition sdk_text {A} (r : SdkResult A) (after_call : M unit) : M A :=
  match r with
  | Rejected => throw ProviderError
  | Unreadable => after_call ;; throw TypeError
  | Got t => after_call ;; ret t
  end.

(** ** The prompt builder *)

Definition quoted (s : string) : string := dq +:+ s +:+ dq.

Definition intro_line : string :=
  "You are a research assistant tasked with creating a comprehensive report based on multiple sources. ".

Definition request_line (userPrompt : string) : string :=
  "The report should specifically address this request: " +:+ quoted userPrompt.

Definition report_guidelines : string :=
  String.concat nl
    [ "Your report should:";
      "1. Have a clear title that reflects the specific analysis requested";
      "2. Begin with a concise executive summary";
      "3. Be organized into relevant sections based on the analysis requested";
      "4. Use markdown formatting for emphasis, lists, and structure";
      "5. Integrate information from sources naturally without explicitly referencing them by number";
      "6. Maintain objectivity while addressing the specific aspects requested in the prompt";
      "7. Compare and contrast the information from each source, noting areas of consensus or points of contention. ";
      "8. Showcase key insights, important data, or innovative ideas." ].

Definition sources_heading : string :=
  "Here are the source articles to analyze:".

(** The shape the model must emit. *)
Definition output_contract : string :=
  String.concat nl
    [ "Format the report as a JSON object with the following structure:";
      "{";
      "  " +:+ quoted "title" +:+ ": " +:+ quoted "Report title" +:+ ",";
      "  " +:+ quoted "summary" +:+ ": "
        +:+ quoted "Executive summary (can include markdown)" +:+ ",";
      "  " +:+ quoted "sections" +:+ ": [";
      "    {";
      "      " +:+ quoted "title" +:+ ": " +:+ quoted "Section title" +:+ ",";
      "      " +:+ quoted "content" +:+ ": "
        +:+ quoted "Section content with markdown formatting";
      "    }";
      "  ]";
      "}" ].

Definition markdown_rules : string :=
  String.concat nl
    [ "Use markdown formatting in the content to improve readability:";
      "- Use **bold** for emphasis";
      "- Use bullet points and numbered lists where appropriate";
      "- Use headings and subheadings with # syntax";
      "- Include code blocks if relevant";
      "- Use > for quotations";
      "- Use --- for horizontal rules where appropriate" ].

Definition citation_rule : string :=
  "Important: Do not use phrases like " +:+ quoted "Source 1" +:+ " or "
  +:+ quoted "According to Source 2"
  +:+ ". Instead, integrate the information naturally into the narrative or reference sources by their titles when necessary.".

(** The inner template, applied to one article. *)
Definition render_article (article : Article) : string :=
  nl +:+ "Title: " +:+ title article +:+ nl
  +:+ "URL: " +:+ url article +:+ nl
  +:+ "Content: " +:+ content article +:+ nl
  +:+ "---" +:+ nl.

Definition prompt_head (userPrompt : string) : string :=
  intro_line +:+ nl +:+ request_line userPrompt +:+ nl +:+ nl
  +:+ report_guidelines +:+ nl +:+ nl
  +:+ sources_heading +:+ nl +:+ nl.

Definition prompt_tail : string :=
  nl +:+ nl +:+ output_contract +:+ nl +:+ nl
  +:+ markdown_rules +:+ nl +:+ nl
  +:+ citation_rule.

Definition generateSystemPrompt (articles : list Article)
  (userPrompt : string) : string :=
  prompt_head userPrompt
  +:+ String.concat nl (map render_article articles)
  +:+ prompt_tail.

(** ** Selectors, catalog checks and JSON steps of the handler *)

(** The [switch (model)] of the handler: the cases are compared with the
    model name from the top; [undefined] equals none of them. *)
Definition is_case (model : option string) (label : string) : bool :=
  match model with
  | Some m => String.eqb m label
  | None => false
  end.

Section Catalog.

Variable env : Env.

(** The first two segments of the selector. *)
Definition selector_platform (platformModel : string) : string :=
  hd EmptyString (split_dunder platformModel).

Definition selector_model (platformModel : string) : option string :=
  nth_error (split_dunder platformModel) 1.

(** Either the response of the failed check, or nothing. *)
Definition checkCatalog (platformModel : string) : option Response :=
  let platform := selector_platform platformModel in
  let model := selector_model platformModel in
  match platforms (CONFIG env) !! platform with
  | Some platformConfig =>
      if platform_enabled platformConfig then
        match models platformConfig !! display model with
        | None =>
            Some (error_response (display model +:+ " model does not exist") 400)
        | Some modelConfig =>
            if model_enabled modelConfig then None
            else Some (error_response (display model +:+ " model is disabled") 400)
        end
      else Some (error_response (platform +:+ " platform is not enabled") 400)
  | None => Some (error_response (platform +:+ " platform is not enabled") 400)
  end.

End Catalog.

(** [reportData.sources = sources], as the serialised response shows it:
    a member whose value is [undefined] is left out. *)
Definition attach_sources (sources : option json) (reportData : json)
  : M json :=
  match reportData with
  | JObject o =>
      ret (JObject (match sources with
                    | Some v => obj_set "sources" v o
                    | None => obj_delete "sources" o
                    end))
  | JArray items => ret (JArray items)
  | _ => throw TypeError
  end.

Definition JSON_parse (text : string) : M json :=
  match JSON.parse text with
  | Some v => ret v
  | None => throw SyntaxError
  end.

Definition request_json (request : Request) : M Body :=
  match request with
  | Some b => ret b
  | None => throw BodyError
  end.

(** ** The report route

    The adapters and the handler, over a file system for the two log
    files. *)

Module Report.

Section Handler.

Variable fs : FileSystem Event LogLine.
Variable env : Env.

Definition logTimeToFile (message : LogLine) : M unit :=
  let logFilePath := "./logs/report_timing_logs.txt" in
  appendFileSync fs Logged logFilePath message.

Definition logResponseToFile (response : LogLine) : M unit :=
  let responseFilePath := "./logs/llm_responses.txt" in
  appendFileSync fs Logged responseFilePath response.

(** *** The provider adapters *)

Definition generateWithGemini (systemPrompt model : string) : M string :=
  let client :=
    if String.eqb model "gemini-flash-thinking" then geminiFlashThinkingModel
    else if String.eqb model "gemini-exp" then geminiModel
    else geminiFlashModel in
  emit (GeminiCalled client systemPrompt) ;;
  sdk_text (gemini_generateContent env client systemPrompt)
    (logTimeToFile (GeminiTime model)).

Definition generateWithOpenAI (systemPrompt model : string)
  : M (option string) :=
  emit (OpenAICalled model systemPrompt) ;;
  sdk_text (openai_create env model systemPrompt)
    (logTimeToFile (OpenAITime model) ;; logResponseToFile SdkResponse).

Definition generateWithAnthropic (systemPrompt model : string) : M string :=
  emit (AnthropicCalled model 3500 "0.9" systemPrompt) ;;
  text <- sdk_text (anthropic_create env model 3500 "0.9" systemPrompt)
            (logTimeToFile (AnthropicTime model) ;;
             logResponseToFile SdkResponse) ;;
  ret (match text with
       | Some t => t
       | None => EmptyString
       end).

Definition dispatch (systemPrompt : string) (model : option string)
  : M (option string) :=
  if is_case model "gemini-flash" then
    r <- generateWithGemini systemPrompt "gemini-flash" ;; ret (Some r)
  else if is_case model "gemini-flash-thinking" then
    r <- generateWithGemini systemPrompt "gemini-flash-thinking" ;;
    ret (Some r)
  else if is_case model "gemini-exp" then
    r <- generateWithGemini systemPrompt "gemini-exp" ;; ret (Some r)
  else if is_case model "gpt-4o" then
    generateWithOpenAI systemPrompt "gpt-4o"
  else if is_case model "gpt-4o-mini" then
    generateWithOpenAI systemPrompt "gpt-4o-mini"
  else if is_case model "o1-mini" then
    generateWithOpenAI systemPrompt "o1-mini"
  else if is_case model "o1" then
    generateWithOpenAI systemPrompt "o1"
  else if is_case model "sonnet-3.5" then
    r <- generateWithAnthropic systemPrompt "claude-3-5-sonnet-latest" ;;
    ret (Some r)
  else if is_case model "haiku-3.5" then
    r <- generateWithAnthropic systemPrompt "claude-3-5-haiku-latest" ;;
    ret (Some r)
  else throw (Error "Invalid platform/model combination").

(** *** Extraction and the final report *)

(** From [response.match] to the end of the inner [try]. *)
Definition extractAndFinalize (sources : option json) (response : string)
  : M unit :=
  match jsonMatch response with
  | None => return_ (error_response "Invalid report format" 500)
  | Some jsonMatch =>
      try_catch
        (reportData <- JSON_parse jsonMatch ;;
         reportData <- attach_sources sources reportData ;;
         logTimeToFile TotalTime ;;
         return_ (ok_response reportData))
        (fun parseError =>
           return_ (error_response "Failed to parse report format" 500))
  end.

(** *** The handler *)

Definition checkRateLimit : M unit :=
  if rateLimits_enabled (CONFIG env) then
    emit RateLimitConsulted ;;
    success <- match ratelimit_limit env with
               | Some s => ret s
               | None => throw LimiterError
               end ;;
    logTimeToFile RateLimitTime ;;
    if success then ret tt
    else return_ (error_response "Too many requests" 429)
  else ret tt.

Definition POST (request : Request) : M unit :=
  try_catch
    (body <- request_json request ;;
     let platformModel :=
       match platformModel body with
       | Some s => s
       | None => "google-gemini-flash"
       end in
     checkRateLimit ;;
     match checkCatalog env platformModel with
     | Some failure => return_ failure
     | None =>
         let model := selector_model platformModel in
         systemPrompt <- match selectedResults body with
                         | Some articles =>
                             ret (generateSystemPrompt articles
                                    (display (prompt body)))
                         | None => throw TypeError
                         end ;;
         response <- try_finally (dispatch systemPrompt model)
                       (logTimeToFile (ModelGenerationTime model)) ;;
         match response with
         | None | Some EmptyString => throw (Error "No response from model")
         | Some response =>
             logResponseToFile (ModelResponse response) ;;
             extractAndFinalize (sources body) response
         end
     end)
    (fun error =>
       logTimeToFile (GenerationError error) ;;
       return_ (error_response "Failed to generate report" 500)).

End Handler.

(** A request handled from an empty trace. *)
Definition run (fs : FileSystem Event LogLine) (env : Env)
  (request : Request) : Completion unit * list Event :=
  POST fs env request [].

End Report.

(** ** The handler when the log files can be written

    The [switch], the extraction and the handler itself on a file system
    where every append succeeds. *)

Definition dispatch (env : Env) (systemPrompt : string)
  (model : option string) : M (option string) :=
  Report.dispatch writable env systemPrompt model.

Definition extractAndFinalize (sources : option json) (response : string)
  : M unit :=
  Report.extractAndFinalize writable sources response.

Definition handle (env : Env) (request : Request)
  : Completion unit * list Event :=
  Report.run writable env request.

(** What the extraction step does to a completion text. *)
Inductive Extraction :=
| Extracted (reportData : json)
| NoStructuredContent
| MalformedStructuredContent.

Definition extract (response : string) : Extraction :=
  match jsonMatch response with
  | None => NoStructuredContent
  | Some span =>
      match JSON.parse span with
      | Some reportData => Extracted reportData
      | None => MalformedStructuredContent
      end
  end.

(** ** The responses of the handler, by name *)

Definition rate_limited : Response := error_response "Too many requests" 429.

Definition platform_not_enabled (platform : string) : Response :=
  error_response (platform +:+ " platform is not enabled") 400.

Definition model_not_found (model : string) : Response :=
  error_response (model +:+ " model does not exist") 400.

Definition model_disabled (model : string) : Response :=
  error_response (model +:+ " model is disabled") 400.

Definition invalid_report_format : Response :=
  error_response "Invalid report format" 500.

Definition parse_failed : Response :=
  error_response "Failed to parse report format" 500.

Definition generation_failed : Response :=
  error_response "Failed to generate report" 500.

(** The fields of the report once the caller's sources are attached. *)
Definition with_sources (sources : option json) (o : list (string * json))
  : list (string * json) :=
  match sources with
  | Some v => obj_set "sources" v o
  | None => obj_delete "sources" o
  end.

(** The response that ends a request whose completion text was extracted
    as [e]. *)
Definition extraction_response (sources : option json) (e : Extraction)
  : Response :=
  match e with
  | Extracted (JObject o) => ok_response (JObject (with_sources sources o))
  | Extracted _ => parse_failed
  | NoStructuredContent => invalid_report_format
  | MalformedStructuredContent => parse_failed
  end.

(** The log line of a successful extraction. *)
Definition extraction_log (e : Extraction) : list Event :=
  match e with
  | Extracted (JObject _) => [Logged TotalTime]
  | _ => []
  end.

(** The model names the [switch] has a case for. *)
Definition supported (model : option string) : bool :=
  existsb (is_case model)
    [ "gemini-flash"; "gemini-flash-thinking"; "gemini-exp"; "gpt-4o";
      "gpt-4o-mini"; "o1-mini"; "o1"; "sonnet-3.5"; "haiku-3.5" ].

(** The selector holds the separator. *)
Fixpoint has_separator (s : string) : bool :=
  match s with
  | EmptyString => false
  | String c r =>
      match r with
      | String d _ => (Ascii.eqb c "_" && Ascii.eqb d "_") || has_separator r
      | EmptyString => false
      end
  end.





(** ** Runs of the handler *)

(** The prompt a provider call was made with. *)
Definition event_prompt (e : Event) : option string :=
  match e with
  | GeminiCalled _ p | OpenAICalled _ p | AnthropicCalled _ _ _ p => Some p
  | _ => None
  end.

(** What a run of the [switch] adds to the trace and how it completes. *)
Record DispatchRun (sp : string) (model : option string)
  (c : Completion (option string)) (evs : list Event) : Prop := {
  run_completion : forall r, c <> Return r;
  run_adapter_calls :
    adapter_calls evs = if supported model then 1 else 0;
  run_limiter_calls : limiter_calls evs = 0;
  run_prompts :
    forallb (fun e => match event_prompt e with
                      | Some p => String.eqb p sp
                      | None => true
                      end) evs = true;
  run_unsupported :
    supported model = false ->
    c = Throw (Error "Invalid platform/model combination") /\ evs = []
}.

(** The selector a request is resolved with. *)
Definition selector (b : Body) : string :=
  match platformModel b with
  | Some s => s
  | None => "google-gemini-flash"
  end.

(** The prompt a request is answered with. *)
Definition request_prompt (articles : list Article) (b : Body) : string :=
  generateSystemPrompt articles (display (prompt b)).

Definition rate_limit_passes (env : Env) : bool :=
  if rateLimits_enabled (CONFIG env) then
    match ratelimit_limit env with
    | Some success => success
    | None => false
    end
  else true.

(** What the rate-limit step leaves in the trace when it lets the request
    through. *)
Definition rate_limit_trace (env : Env) : list Event :=
  if rateLimits_enabled (CONFIG env)
  then [RateLimitConsulted; Logged RateLimitTime]
  else [].

(** The ways a request ends: one rule for each path through the handler,
    with the response and the trace of that path. *)
Inductive Outcome (env : Env) : Request -> Response -> list Event -> Prop :=
| out_body_error :
    Outcome env None generation_failed [Logged (GenerationError BodyError)]
| out_limiter_error b :
    rateLimits_enabled (CONFIG env) = true ->
    ratelimit_limit env = None ->
    Outcome env (Some b) generation_failed
      [RateLimitConsulted; Logged (GenerationError LimiterError)]
| out_rate_limited b :
    rateLimits_enabled (CONFIG env) = true ->
    ratelimit_limit env = Some false ->
    Outcome env (Some b) rate_limited [RateLimitConsulted; Logged RateLimitTime]
| out_catalog b failure :
    rate_limit_passes env = true ->
    checkCatalog env (selector b) = Some failure ->
    Outcome env (Some b) failure (rate_limit_trace env)
| out_no_articles b :
    rate_limit_passes env = true ->
    checkCatalog env (selector b) = None ->
    selectedResults b = None ->
    Outcome env (Some b) generation_failed
      (rate_limit_trace env ++ [Logged (GenerationError TypeError)])
| out_dispatch_failed b articles e evs :
    rate_limit_passes env = true ->
    checkCatalog env (selector b) = None ->
    selectedResults b = Some articles ->
    dispatch env (request_prompt articles b) (selector_model (selector b))
      (rate_limit_trace env)
    = (Throw e, (rate_limit_trace env ++ evs)%list) ->
    DispatchRun (request_prompt articles b) (selector_model (selector b))
      (Throw e) evs ->
    Outcome env (Some b) generation_failed
      (rate_limit_trace env ++ evs
       ++ [Logged (ModelGenerationTime (selector_model (selector b)));
           Logged (GenerationError e)])
| out_no_response b articles response evs :
    rate_limit_passes env = true ->
    checkCatalog env (selector b) = None ->
    selectedResults b = Some articles ->
    dispatch env (request_prompt articles b) (selector_model (selector b))
      (rate_limit_trace env)
    = (Normal response, (rate_limit_trace env ++ evs)%list) ->
    DispatchRun (request_prompt articles b) (selector_model (selector b))
      (Normal response) evs ->
    response = None \/ response = Some EmptyString ->
    Outcome env (Some b) generation_failed
      (rate_limit_trace env ++ evs
       ++ [Logged (ModelGenerationTime (selector_model (selector b)));
           Logged (GenerationError (Error "No response from model"))])
| out_extraction b articles c raw evs :
    rate_limit_passes env = true ->
    checkCatalog env (selector b) = None ->
    selectedResults b = Some articles ->
    dispatch env (request_prompt articles b) (selector_model (selector b))
      (rate_limit_trace env)
    = (Normal (Some (String c raw)), (rate_limit_trace env ++ evs)%list) ->
    DispatchRun (request_prompt articles b) (selector_model (selector b))
      (Normal (Some (String c raw))) evs ->
    Outcome env (Some b)
      (extraction_response (sources b) (extract (String c raw)))
      (rate_limit_trace env ++ evs
       ++ [Logged (ModelGenerationTime (selector_model (selector b)));
           Logged (ModelResponse (String c raw))]
       ++ extraction_log (extract (String c raw))).


(** The request with its selector set. *)
Definition with_selector (sel : string) (b : Body) : Body :=
  {| selectedResults := selectedResults b;
     sources := sources b;
     prompt := prompt b;
     platformModel := Some sel |}.

(** ** Searching a text *)



(** ** Sample worlds and requests *)

Module Sample.

Definition catalog : gmap string PlatformConfig :=
  list_to_map
    [ ("google",
       {| platform_enabled := true;
          models := list_to_map
                      [ ("gemini-flash", {| model_enabled := true |});
                        ("gemini-exp", {| model_enabled := false |}) ] |});
      ("openai",
       {| platform_enabled := false;
          models := list_to_map [ ("gpt-4o", {| model_enabled := true |}) ] |}) ].

(** The catalog without its disabled platform. *)
Definition catalog_without_openai : gmap string PlatformConfig :=
  delete "openai" catalog.

(** A world in which every provider answers [completion] and the limiter
    answers [limit]. *)
Definition world (limited : bool) (limit : option bool)
  (cat : gmap string PlatformConfig) (completion : string) : Env :=
  {| CONFIG := {| rateLimits_enabled := limited; platforms := cat |};
     ratelimit_limit := limit;
     gemini_generateContent := fun _ _ => Got completion;
     openai_create := fun _ _ => Got (Some completion);
     anthropic_create := fun _ _ _ _ => Got (Some completion) |}.

(** The completion of the extraction example. *)
Definition report_text : string :=
  "Here is the report:" +:+ nl
  +:+ "{" +:+ quoted "title" +:+ ":" +:+ quoted "T" +:+ ","
  +:+ quoted "summary" +:+ ":" +:+ quoted "S" +:+ ","
  +:+ quoted "sections" +:+ ":[{" +:+ quoted "title" +:+ ":" +:+ quoted "A"
  +:+ "," +:+ quoted "content" +:+ ":" +:+ quoted "B" +:+ "}]}" +:+ nl
  +:+ "Hope this helps!".

Definition report : list (string * json) :=
  [ ("title", JString "T");
    ("summary", JString "S");
    ("sections",
     JArray [JObject [("title", JString "A"); ("content", JString "B")]]) ].

(** A completion that names its own sources. *)
Definition report_text_with_sources : string :=
  "{" +:+ quoted "sources" +:+ ":[1]," +:+ quoted "title" +:+ ":"
  +:+ quoted "T" +:+ "}".

Definition provenance : json :=
  JArray [JObject [("id", JString "s1")]; JObject [("id", JString "s2")]].

Definition article : Article :=
  {| title := "Title X"; url := "https://x.example"; content := "Body X" |}.

Definition request (articles : list Article) (p : option string)
  (sel : option string) : Body :=
  {| selectedResults := Some articles;
     sources := Some provenance;
     prompt := p;
     platformModel := sel |}.

End Sample.

(** ** Further notions on selectors, requests and provider calls *)

(** The text ends with an underscore. *)
Fixpoint ends_with_underscore (s : string) : bool :=
  match s with
  | EmptyString => false
  | String c EmptyString => Ascii.eqb c "_"
  | String _ r => ends_with_underscore r
  end.

(** The request with its sources set. *)
Definition with_provenance (s : option json) (b : Body) : Body :=
  {| selectedResults := selectedResults b;
     sources := s;
     prompt := prompt b;
     platformModel := platformModel b |}.

(** The provider call [ev] is the one the [switch] makes for the model
    segment [model]. *)
Definition routed (model : option string) (ev : Event) : Prop :=
  match ev with
  | GeminiCalled client _ =>
      (model = Some "gemini-flash" /\ client = geminiFlashModel) \/
      (model = Some "gemini-flash-thinking"
       /\ client = geminiFlashThinkingModel) \/
      (model = Some "gemini-exp" /\ client = geminiModel)
  | OpenAICalled m _ =>
      model = Some m /\ In m ["gpt-4o"; "gpt-4o-mini"; "o1-mini"; "o1"]
  | AnthropicCalled m max_tokens temperature _ =>
      max_tokens = 3500 /\ temperature = "0.9" /\
      ((model = Some "sonnet-3.5" /\ m = "claude-3-5-sonnet-latest") \/
       (model = Some "haiku-3.5" /\ m = "claude-3-5-haiku-latest"))
  | _ => True
  end.

(** A catalog in which the platform [openai] is enabled as well. *)
Definition catalog_with_openai : gmap string PlatformConfig :=
  list_to_map
    [ ("google",
       {| platform_enabled := true;
          models := list_to_map
                      [ ("gemini-flash", {| model_enabled := true |}) ] |});
      ("openai",
       {| platform_enabled := true;
          models := list_to_map [ ("gpt-4o", {| model_enabled := true |}) ] |}) ].

(** A line of the response log that holds a completion of the model, as
    the handler writes it before the extraction. *)
Definition is_completion_line (e : Event) : bool :=
  match e with
  | Logged (ModelResponse _) => true
  | _ => false
  end.

(** A world whose providers answer without text, or reject the call. *)
Definition silent_world (rejects : bool) : Env :=
  {| CONFIG := {| rateLimits_enabled := false;
                  platforms := catalog_with_openai |};
     ratelimit_limit := None;
     gemini_generateContent :=
       fun _ _ => if rejects then Rejected else Got EmptyString;
     openai_create := fun _ _ => if rejects then Rejected else Got None;
     anthropic_create := fun _ _ _ _ => if rejects then Rejected else Got None |}.

(** ** The sibling routes

    The search route and the content route are handlers of the same shape
    as the report route, each with its own collaborators.  Their
    statements run over the events of the route; the completions are the
    ones of the report route. *)

Module Stmt.

Section Statements.

Context {Ev : Type}.

Definition T (A : Type) : Type := list Ev -> Completion A * list Ev.

Definition ret {A} (a : A) : T A := fun tr => (Normal a, tr).

Definition bind {A B} (m : T A) (k : A -> T B) : T B :=
  fun tr =>
    match m tr with
    | (Normal a, tr') => k a tr'
    | (Return r, tr') => (Return r, tr')
    | (Throw e, tr') => (Throw e, tr')
    end.

Definition emit (e : Ev) : T unit := fun tr => (Normal tt, (tr ++ [e])%list).

Definition throw {A} (e : Exn) : T A := fun tr => (Throw e, tr).

Definition return_ {A} (r : Response) : T A := fun tr => (Return r, tr).

(** [try { m } catch (error) { handler error }] *)
Definition try_catch {A} (m : T A) (handler : Exn -> T A) : T A :=
  fun tr =>
    match m tr with
    | (Throw e, tr') => handler e tr'
    | other => other
    end.

(** [await value], for a promise that may reject with [e]. *)
Definition await {A} (value : option A) (e : Exn) : T A :=
  match value with
  | Some a => ret a
  | None => throw e
  end.

End Statements.

Arguments T : clear implicits.

End Stmt.

Declare Scope route_scope.
Delimit Scope route_scope with route.

Notation "x <- m ;; k" := (Stmt.bind m (fun x => k))
  (at level 100, m at next level, right associativity) : route_scope.
Notation "m ;; k" := (Stmt.bind m (fun _ => k))
  (at level 100, right associativity) : route_scope.

(** The decimal text of a status code. *)
Definition status_text (st : nat) : string :=
  NilEmpty.string_of_uint (Nat.to_uint st).

(** [response.ok] *)
Definition status_ok (st : nat) : bool :=
  ((200 <=? st) && (st <=? 299))%nat.

(** ** The search route *)

Module Search.

Local Open Scope route_scope.

(** [getFreshness] *)
Definition getFreshness (timeFilter : string) : string :=
  if String.eqb timeFilter "24h" then "Day"
  else if String.eqb timeFilter "week" then "Week"
  else if String.eqb timeFilter "month" then "Month"
  else if String.eqb timeFilter "year" then "Year"
  else EmptyString.

(** The request body after destructuring. *)
Record Body := { query : option string; timeFilter : option string }.

Definition Request := option Body.

(** What the search API answers: the call rejects, or it answers with a
    status and a body that [response.json()] reads ([None] when that read
    throws). *)
Inductive FetchResult :=
| FetchRejected
| Answered (st : nat) (data : option json).

(** The collaborators of the route: the configuration (the count is the
    text of [CONFIG.search.resultsPerPage.toString()]), the environment
    variable [AZURE_SUB_KEY], the rate limiter by key, and the search API
    by query parameters and subscription key. *)
Record Env := {
  rateLimits_enabled : bool;
  resultsPerPage : string;
  market : string;
  safeSearch : string;
  AZURE_SUB_KEY : option string;
  searchRatelimit_limit : string -> option bool;
  bing : list (string * string) -> string -> FetchResult
}.

Inductive LogLine :=
| RateLimitTime
| FetchTime
| TotalTime
| SearchError (e : Exn).

Inductive Event :=
| LimiterConsulted (key : string)
| Fetched (params : list (string * string)) (subscriptionKey : string)
| Logged (line : LogLine).

Definition is_fetch (e : Event) : bool :=
  match e with
  | Fetched _ _ => true
  | _ => false
  end.

Definition is_limiter_call (e : Event) : bool :=
  match e with
  | LimiterConsulted _ => true
  | _ => false
  end.

Definition fetches (tr : list Event) : nat :=
  List.length (List.filter is_fetch tr).

Definition limiter_calls (tr : list Event) : nat :=
  List.length (List.filter is_limiter_call tr).

Section Handler.

Variable fs : FileSystem Event LogLine.
Variable env : Env.

Definition logToFile (message : LogLine) : Stmt.T Event unit :=
  let logFilePath := "./logs/search_timing_logs.txt" in
  appendFileSync fs Logged logFilePath message.

(** The query parameters of the call, in the order they are set. *)
Definition search_params (q timeFilter : string)
  : list (string * string) :=
  [ ("q", q);
    ("count", resultsPerPage env);
    ("mkt", market env);
    ("safeSearch", safeSearch env);
    ("textFormat", "HTML");
    ("textDecorations", "true") ]
  ++ match getFreshness timeFilter with
     | EmptyString => []
     | freshness => [("freshness", freshness)]
     end.

Definition POST (request : Request) : Stmt.T Event unit :=
  Stmt.try_catch
    (body <- Stmt.await request BodyError ;;
     let timeFilter :=
       match timeFilter body with
       | Some t => t
       | None => "all"
       end in
     match query body with
     | None | Some EmptyString =>
         Stmt.return_ (error_response "Query parameter is required" 400)
     | Some q =>
         (if rateLimits_enabled env then
            Stmt.emit (LimiterConsulted q) ;;
            success <- Stmt.await (searchRatelimit_limit env q) LimiterError ;;
            logToFile RateLimitTime ;;
            if success then Stmt.ret tt
            else Stmt.return_ (error_response "Too many requests" 429)
          else Stmt.ret tt) ;;
         match AZURE_SUB_KEY env with
         | None | Some EmptyString =>
             Stmt.return_ (error_response "Search API key not configured" 500)
         | Some subscriptionKey =>
             let params := search_params q timeFilter in
             Stmt.emit (Fetched params subscriptionKey) ;;
             match bing env params subscriptionKey with
             | FetchRejected => Stmt.throw ProviderError
             | Answered st data =>
                 logToFile FetchTime ;;
                 if status_ok st then
                   data <- Stmt.await data SyntaxError ;;
                   logToFile TotalTime ;;
                   Stmt.return_ (ok_response data)
                 else
                   Stmt.throw
                     (Error ("Search API returned " +:+ status_text st))
             end
         end
     end)
    (fun error =>
       logToFile (SearchError error) ;;
       Stmt.return_ (error_response "Failed to fetch search results" 500)).

End Handler.

(** A request handled from an empty trace. *)
Definition run (fs : FileSystem Event LogLine) (env : Env)
  (request : Request) : Completion unit * list Event :=
  POST fs env request [].

(** The run when the log file can be written. *)
Definition handle (env : Env) (request : Request)
  : Completion unit * list Event :=
  run writable env request.

End Search.

(** ** The content route *)

Module FetchContent.

Local Open Scope route_scope.

Record Body := { url : option string }.

Definition Request := option Body.

(** What the reader service answers: the call rejects, or it answers with
    a status and a text that [response.text()] reads ([None] when that
    read throws). *)
Inductive FetchResult :=
| FetchRejected
| Answered (st : nat) (text : option string).

(** The collaborators of the route: the rate-limit switch of [CONFIG], the
    rate limiter by key, [encodeURIComponent] ([None] when it throws), the
    reader service by address, and the text of the measured duration
    ([timeSpent.toFixed(2)]). *)
Record Env := {
  rateLimits_enabled : bool;
  fetchContentRatelimit_limit : string -> option bool;
  encodeURIComponent : string -> option string;
  reader : string -> FetchResult;
  elapsed : string
}.

Inductive LogLine :=
| FetchTime (target : string)
| FetchError (target : string) (e : Exn)
| RequestError (e : Exn).

Inductive Event :=
| LimiterConsulted (key : string)
| Fetched (address : string)
| Logged (line : LogLine).

Definition is_fetch (e : Event) : bool :=
  match e with
  | Fetched _ => true
  | _ => false
  end.

Definition is_limiter_call (e : Event) : bool :=
  match e with
  | LimiterConsulted _ => true
  | _ => false
  end.

Definition fetches (tr : list Event) : nat :=
  List.length (List.filter is_fetch tr).

Definition limiter_calls (tr : list Event) : nat :=
  List.length (List.filter is_limiter_call tr).

Section Handler.

Variable fs : FileSystem Event LogLine.
Variable env : Env.

Definition logTimeToFile (message : LogLine) : Stmt.T Event unit :=
  let logFilePath := "./logs/fetch_timing_logs.txt" in
  appendFileSync fs Logged logFilePath message.

(** The statuses a response with a body can be built with: from 200 to
    599, without the statuses that allow no body. *)
Definition can_carry_body (st : nat) : bool :=
  ((200 <=? st) && (st <=? 599)
   && negb ((st =? 204) || (st =? 205) || (st =? 304)))%nat.

(** [NextResponse.json(data, { status })], which throws for a status that
    a response with a body cannot have. *)
Definition json_response (data : json) (st : nat) : Stmt.T Event unit :=
  if can_carry_body st then Stmt.return_ {| status := st; body := data |}
  else Stmt.throw TypeError.

Definition POST (request : Request) : Stmt.T Event unit :=
  Stmt.try_catch
    (body <- Stmt.await request BodyError ;;
     match url body with
     | None | Some EmptyString =>
         Stmt.return_ (error_response "URL is required" 400)
     | Some url =>
         (if rateLimits_enabled env then
            Stmt.emit (LimiterConsulted url) ;;
            success <- Stmt.await (fetchContentRatelimit_limit env url)
                         LimiterError ;;
            if success then Stmt.ret tt
            else Stmt.return_ (error_response "Too many requests" 429)
          else Stmt.ret tt) ;;
         Stmt.try_catch
           (encoded <- Stmt.await (encodeURIComponent env url)
                         (Error "URI malformed") ;;
            let address := "https://r.jina.ai/" +:+ encoded in
            Stmt.emit (Fetched address) ;;
            match reader env address with
            | FetchRejected => Stmt.throw ProviderError
            | Answered st text =>
                logTimeToFile (FetchTime url) ;;
                if status_ok st then
                  content <- Stmt.await text TypeError ;;
                  Stmt.return_
                    (ok_response
                       (JObject [ ("content", JString content);
                                  ("timeSpent",
                                   JString (elapsed env +:+ "ms")) ]))
                else
                  json_response
                    (JObject [("error", JString "Failed to fetch content")])
                    st
            end)
           (fun error =>
              logTimeToFile (FetchError url error) ;;
              Stmt.return_ (error_response "Failed to fetch content" 500))
     end)
    (fun error =>
       logTimeToFile (RequestError error) ;;
       Stmt.return_ (error_response "Invalid request" 400)).

End Handler.

(** A request handled from an empty trace. *)
Definition run (fs : FileSystem Event LogLine) (env : Env)
  (request : Request) : Completion unit * list Event :=
  POST fs env request [].

(** The run when the log file can be written. *)
Definition handle (env : Env) (request : Request)
  : Completion unit * list Event :=
  run writable env request.

End FetchContent.

(** ** Notions for the statements about the search and content routes *)

(** The time filter of a request, [all] when it names none. *)
Definition search_filter (b : Search.Body) : string :=
  match Search.timeFilter b with
  | Some t => t
  | None => "all"
  end.


(** A sample environment of the search route: one answer of the limiter
    and one of the search API, whatever the key and the query. *)
Definition search_env (limited : bool) (limit : option bool)
  (key : option string) (answer : Search.FetchResult) : Search.Env :=
  {| Search.rateLimits_enabled := limited;
     Search.resultsPerPage := "10";
     Search.market := "en-US";
     Search.safeSearch := "Moderate";
     Search.AZURE_SUB_KEY := key;
     Search.searchRatelimit_limit := fun _ => limit;
     Search.bing := fun _ _ => answer |}.

(** The rate limiter lets the address pass, or is switched off. *)
Definition content_passes (env : FetchContent.Env) (url : string) : bool :=
  if FetchContent.rateLimits_enabled env then
    match FetchContent.fetchContentRatelimit_limit env url with
    | Some success => success
    | None => false
    end
  else true.

(** A sample environment of the content route: one answer of the limiter
    and one of the reader service, and an encoding that leaves the
    address as it is. *)
Definition content_env (limited : bool) (limit : option bool)
  (answer : FetchContent.FetchResult) : FetchContent.Env :=
  {| FetchContent.rateLimits_enabled := limited;
     FetchContent.fetchContentRatelimit_limit := fun _ => limit;
     FetchContent.encodeURIComponent := fun u => Some u;
     FetchContent.reader := fun _ => answer;
     FetchContent.elapsed := "12.34" |}.

(** * Properties *)

(** ** Strings *)

#[local] Arguments String.append !s1 s2 : simpl nomatch.

Lemma append_cons (c : ascii) (s t : string) :
  String c s +:+ t = String c (s +:+ t).
Proof. reflexivity. Qed.

Lemma append_nil_l (s : string) : EmptyString +:+ s = s.
Proof. reflexivity. Qed.

Lemma append_nil_r (s : string) : s +:+ EmptyString = s.
Proof.
  induction s as [|c s IH]; [reflexivity|].
  rewrite append_cons, IH. reflexivity.
Qed.

Lemma append_assoc (s t u : string) : (s +:+ t) +:+ u = s +:+ (t +:+ u).
Proof.
  induction s as [|c s IH]; [reflexivity|].
  rewrite !append_cons, IH. reflexivity.
Qed.

Lemma length_append (s t : string) :
  String.length (s +:+ t) = String.length s + String.length t.
Proof.
  induction s as [|c s IH]; [reflexivity|].
  rewrite append_cons. simpl. rewrite IH. reflexivity.
Qed.

(** Two texts that agree and end in blocks of one length end in the same
    block. *)
Lemma append_same_length_tail (s1 s2 a b : string) :
  String.length a = String.length b ->
  s1 +:+ a = s2 +:+ b -> a = b.
Proof.
  revert s2. induction s1 as [|c s1 IH]; intros [|d s2] Hlen Heq.
  - exact Heq.
  - exfalso. apply (f_equal String.length) in Heq.
    change (EmptyString +:+ a) with a in Heq.
    rewrite length_append in Heq. simpl in Heq. lia.
  - exfalso. apply (f_equal String.length) in Heq.
    change (EmptyString +:+ b) with b in Heq.
    rewrite length_append in Heq. simpl in Heq. lia.
  - rewrite !append_cons in Heq. injection Heq as _ Heq.
    exact (IH s2 Hlen Heq).
Qed.

Lemma lacks_append (c : ascii) (s t : string) :
  lacks c (s +:+ t) = lacks c s && lacks c t.
Proof.
  induction s as [|d s IH]; [reflexivity|].
  rewrite append_cons. simpl. rewrite IH. apply andb_assoc.
Qed.

(** ** The greedy brace span *)

Lemma through_last_close_none (s : string) :
  through_last_close s = None <-> lacks close_brace s = true.
Proof.
  induction s as [|c s IH]; simpl.
  - split; reflexivity.
  - destruct (through_last_close s) as [t|].
    + split; [discriminate|]. intros H.
      apply andb_true_iff in H as [_ H].
      apply IH in H. discriminate.
    + destruct (Ascii.eqb c close_brace); simpl.
      * split; discriminate.
      * split; intros _; [|reflexivity]. apply IH. reflexivity.
Qed.

Lemma lacks_has (c : ascii) (mid post : string) :
  lacks c (mid +:+ str1 c +:+ post) = false.
Proof.
  rewrite lacks_append. simpl. rewrite Ascii.eqb_refl. apply andb_false_r.
Qed.

Lemma lacks_has_cons (c : ascii) (mid post : string) :
  lacks c (mid +:+ String c post) = false.
Proof. exact (lacks_has c mid post). Qed.

(** A text that holds [c] cannot lack it. *)
Ltac lacks_contradiction H Hs :=
  rewrite H in Hs;
  first [rewrite lacks_has in Hs | rewrite lacks_has_cons in Hs];
  discriminate.

Lemma through_last_close_some (s t : string) :
  through_last_close s = Some t <->
  exists mid post,
    s = mid +:+ str1 close_brace +:+ post /\
    lacks close_brace post = true /\
    t = mid +:+ str1 close_brace.
Proof.
  revert t. induction s as [|c s IH]; intros t.
  - simpl. split; [discriminate|].
    intros (mid & post & H & _). destruct mid; discriminate.
  - simpl. destruct (through_last_close s) as [u|] eqn:Hs.
    + split.
      * intros [= <-].
        destruct (proj1 (IH u) eq_refl) as (mid & post & Hs' & Hp & Hu).
        exists (String c mid), post. subst. repeat split; assumption.
      * intros (mid & post & H & Hp & Ht). subst t.
        destruct mid as [|d mid].
        -- simpl in H. injection H as Hc H. subst.
           apply through_last_close_none in Hp. congruence.
        -- rewrite append_cons in H. injection H as Hc H. subst d.
           assert (Hu : Some u = Some (mid +:+ str1 close_brace)).
           { apply IH. exists mid, post. repeat split; assumption. }
           injection Hu as Hu. subst u. reflexivity.
    + apply through_last_close_none in Hs.
      destruct (Ascii.eqb c close_brace) eqn:Hc.
      * apply Ascii.eqb_eq in Hc. split.
        -- intros [= <-]. exists EmptyString, s. subst c.
           repeat split. exact Hs.
        -- intros (mid & post & H & Hp & Ht). subst t.
           destruct mid as [|d mid].
           ++ subst c. reflexivity.
           ++ rewrite append_cons in H. injection H as Hd H.
              lacks_contradiction H Hs.
      * split; [discriminate|].
        intros (mid & post & H & Hp & Ht).
        destruct mid as [|d mid].
        -- simpl in H. injection H as Hd H. subst c.
           rewrite Ascii.eqb_refl in Hc. discriminate.
        -- rewrite append_cons in H. injection H as Hd H.
           lacks_contradiction H Hs.
Qed.

Lemma jsonMatch_no_open (raw : string) :
  lacks open_brace raw = true -> jsonMatch raw = None.
Proof.
  induction raw as [|c raw IH]; simpl; [reflexivity|].
  destruct (Ascii.eqb c open_brace); simpl; [discriminate|exact IH].
Qed.

Lemma jsonMatch_no_close (raw : string) :
  lacks close_brace raw = true -> jsonMatch raw = None.
Proof.
  induction raw as [|c raw IH]; simpl; [reflexivity|].
  intros H. apply andb_true_iff in H as [_ H].
  rewrite (proj2 (through_last_close_none raw) H), (IH H).
  destruct (Ascii.eqb c open_brace); reflexivity.
Qed.

(** The match is the span from the first opening brace to the last closing
    brace that follows it. *)
Lemma jsonMatch_span (raw span : string) :
  jsonMatch raw = Some span <->
  exists pre mid post,
    raw = pre +:+ str1 open_brace +:+ mid +:+ str1 close_brace +:+ post /\
    lacks open_brace pre = true /\
    lacks close_brace post = true /\
    span = str1 open_brace +:+ mid +:+ str1 close_brace.
Proof.
  revert span. induction raw as [|c raw IH]; intros span.
  - simpl. split; [discriminate|].
    intros (pre & mid & post & H & _). destruct pre; discriminate.
  - simpl. destruct (Ascii.eqb c open_brace) eqn:Hc.
    + apply Ascii.eqb_eq in Hc. subst c.
      destruct (through_last_close raw) as [t|] eqn:Ht.
      * apply through_last_close_some in Ht as (mid & post & Hraw & Hp & Hu).
        subst raw t. split.
        -- intros [= <-]. exists EmptyString, mid, post.
           repeat split. exact Hp.
        -- intros (pre & mid' & post' & H & Hpre & Hp' & Hs). subst span.
           destruct pre as [|d pre].
           ++ simpl in H. injection H as H.
              assert (Hu : through_last_close
                             (mid +:+ str1 close_brace +:+ post)
                           = Some (mid' +:+ str1 close_brace)).
              { apply through_last_close_some. exists mid', post'.
                repeat split; assumption. }
              assert (Hv : through_last_close
                             (mid +:+ str1 close_brace +:+ post)
                           = Some (mid +:+ str1 close_brace)).
              { apply through_last_close_some. exists mid, post.
                repeat split; assumption. }
              rewrite Hv in Hu. injection Hu as Hu. rewrite Hu. reflexivity.
           ++ rewrite append_cons in H. injection H as Hd _. subst d.
              simpl in Hpre. rewrite ?Ascii.eqb_refl in Hpre. discriminate.
      * apply through_last_close_none in Ht.
        rewrite (jsonMatch_no_close raw Ht).
        split; [discriminate|].
        intros (pre & mid & post & H & Hpre & Hp & Hs).
        destruct pre as [|d pre].
        -- simpl in H. injection H as H.
           lacks_contradiction H Ht.
        -- rewrite append_cons in H. injection H as Hd _. subst d.
           simpl in Hpre. rewrite ?Ascii.eqb_refl in Hpre. discriminate.
    + rewrite IH. split.
      * intros (pre & mid & post & Hraw & Hpre & Hp & Hs).
        exists (String c pre), mid, post. subst raw.
        repeat split; try assumption.
        simpl. rewrite Hc, Hpre. reflexivity.
      * intros (pre & mid & post & H & Hpre & Hp & Hs).
        destruct pre as [|d pre].
        -- simpl in H. injection H as Hd _. subst c.
           rewrite Ascii.eqb_refl in Hc. discriminate.
        -- rewrite append_cons in H. injection H as Hd H. subst d.
           simpl in Hpre. rewrite Hc in Hpre. simpl in Hpre.
           exists pre, mid, post. repeat split; assumption.
Qed.

(** ** Extraction *)

Lemma jsonMatch_starts_with_brace (raw span : string) :
  jsonMatch raw = Some span -> exists r, span = String open_brace r.
Proof.
  intros H. apply jsonMatch_span in H as (pre & mid & post & _ & _ & _ & ->).
  exists (mid +:+ str1 close_brace). reflexivity.
Qed.

(** A text that starts with an opening brace parses to an object, or not
    at all. *)
Lemma parse_brace_object (r : string) (d : json) :
  JSON.parse (String open_brace r) = Some d -> exists o, d = JObject o.
Proof.
  unfold JSON.parse.
  change (JSON.skip_ws (String open_brace r)) with (String open_brace r).
  generalize (2 * String.length (String open_brace r) + 2).
  intros [|f]; [discriminate|].
  cbn [JSON.parse_value].
  change (Ascii.eqb open_brace open_brace) with true. cbv iota.
  destruct (JSON.eat close_brace (JSON.skip_ws r)) as [r1|].
  - destruct (JSON.skip_ws r1); intros [= <-]. eauto.
  - destruct (JSON.parse_members f (JSON.skip_ws r)) as [[ms rest]|];
      [|discriminate].
    destruct (JSON.skip_ws rest); intros [= <-].
    unfold JSON.members_to_object. eauto.
Qed.


(** The extraction step of the handler, by the outcome of [extract]. *)
Lemma extractAndFinalize_spec (sources : option json)
  (raw : string) (tr : list Event) :
  extractAndFinalize sources raw tr =
  (Return (extraction_response sources (extract raw)),
   (tr ++ extraction_log (extract raw))%list).
Proof.
  unfold extractAndFinalize, Report.extractAndFinalize, Report.logTimeToFile,
    appendFileSync, writable, extract.
  destruct (jsonMatch raw) as [span|] eqn:Hm;
    [|simpl; rewrite app_nil_r; reflexivity].
  destruct (jsonMatch_starts_with_brace _ _ Hm) as [r ->].
  unfold try_catch, bind, JSON_parse.
  destruct (JSON.parse (String open_brace r)) as [d|] eqn:Hp;
    [|simpl; rewrite app_nil_r; reflexivity].
  destruct (parse_brace_object _ _ Hp) as [o ->].
  reflexivity.
Qed.

#[local] Arguments extraction_response : simpl never.
#[local] Arguments extraction_log : simpl never.
#[local] Arguments generateSystemPrompt : simpl never.
#[local] Arguments checkCatalog : simpl never.
#[local] Arguments selector_model : simpl never.
#[local] Arguments is_case : simpl never.

(** ** The handler, case by case *)

Lemma adapter_calls_app (tr tr' : list Event) :
  adapter_calls (tr ++ tr') = adapter_calls tr + adapter_calls tr'.
Proof.
  unfold adapter_calls. rewrite List.filter_app, List.length_app. reflexivity.
Qed.

Lemma limiter_calls_app (tr tr' : list Event) :
  limiter_calls (tr ++ tr') = limiter_calls tr + limiter_calls tr'.
Proof.
  unfold limiter_calls. rewrite List.filter_app, List.length_app. reflexivity.
Qed.

(** The scrutinee that is examined first in [x]. *)
Ltac innermost x :=
  lazymatch x with
  | context [match ?y with _ => _ end] => innermost y
  | _ => x
  end.

Ltac split_innermost :=
  match goal with
  | |- context [match ?x with _ => _ end] =>
      let y := innermost x in destruct y eqn:?
  end.

Ltac open_adapters :=
  unfold dispatch, Report.dispatch, Report.generateWithGemini,
    Report.generateWithOpenAI, Report.generateWithAnthropic, sdk_text,
    bind, ret, emit, throw, Report.logTimeToFile, Report.logResponseToFile,
    appendFileSync, writable.

Lemma dispatch_spec (env : Env) (sp : string) (model : option string)
  (tr : list Event) :
  exists c evs,
    dispatch env sp model tr = (c, (tr ++ evs)%list) /\
    DispatchRun sp model c evs.
Proof.
  assert (Hsup : supported model
                 = existsb (is_case model)
                     [ "gemini-flash"; "gemini-flash-thinking"; "gemini-exp";
                       "gpt-4o"; "gpt-4o-mini"; "o1-mini"; "o1";
                       "sonnet-3.5"; "haiku-3.5" ]) by reflexivity.
  simpl in Hsup. open_adapters. simpl.
  repeat (split_innermost; simpl in * );
    rewrite <- ?app_assoc; simpl;
    try (eexists; exists []; rewrite app_nil_r; split; [reflexivity|]);
    try (eexists; eexists; split; [reflexivity|]);
    (split; rewrite ?Hsup; simpl; rewrite ?String.eqb_refl;
     try reflexivity; try discriminate;
     try (intros; split; reflexivity)).
Qed.

(** The handler completes by [return], along one of the paths of
    [Outcome]. *)
Lemma handle_outcome (env : Env) (request : Request) :
  exists r tr,
    handle env request = (Return r, tr) /\ Outcome env request r tr.
Proof.
  unfold handle, Report.run, Report.POST, request_json, try_catch, bind at 1.
  change (Report.dispatch writable env) with (dispatch env).
  change (Report.extractAndFinalize writable) with extractAndFinalize.
  destruct request as [b|]; simpl;
    [|do 2 eexists; split; [reflexivity|constructor]].
  fold (selector b).
  assert (Hpass : rate_limit_passes env
                  = if rateLimits_enabled (CONFIG env)
                    then match ratelimit_limit env with
                         | Some success => success
                         | None => false
                         end
                    else true) by reflexivity.
  assert (Htr : rate_limit_trace env
                = if rateLimits_enabled (CONFIG env)
                  then [RateLimitConsulted; Logged RateLimitTime]
                  else []) by reflexivity.
  unfold Report.checkRateLimit, bind, emit, ret, throw, return_,
    Report.logTimeToFile, Report.logResponseToFile, appendFileSync, writable,
    try_finally.
  destruct (rateLimits_enabled (CONFIG env)) eqn:Hen; simpl;
    [destruct (ratelimit_limit env) as [[|]|] eqn:Hlim; simpl|];
    try (do 2 eexists; split; [reflexivity|]; constructor; assumption).
  all: destruct (checkCatalog env (selector b)) as [failure|] eqn:Hcat; simpl;
    [exists failure, (rate_limit_trace env); split;
       [rewrite Htr; reflexivity|constructor; assumption]|].
  all: destruct (selectedResults b) as [articles|] eqn:Hart; simpl;
    [|exists generation_failed,
        (rate_limit_trace env ++ [Logged (GenerationError TypeError)])%list;
      split; [rewrite Htr; reflexivity|constructor; assumption]].
  all: fold (request_prompt articles b).
  all: destruct (dispatch_spec env (request_prompt articles b)
                   (selector_model (selector b)) (rate_limit_trace env))
         as (c & evs & Hd & Hrun).
  all: pose proof Hd as Hd'; rewrite Htr in Hd'; simpl in Hd'; rewrite Hd'; clear Hd'; simpl.
  all: destruct c as [response|r|e]; simpl;
    [|exfalso; exact (run_completion _ _ _ _ Hrun r eq_refl)
     |exists generation_failed,
        (rate_limit_trace env ++ evs
         ++ [Logged (ModelGenerationTime (selector_model (selector b)));
             Logged (GenerationError e)])%list;
      split; [rewrite Htr; simpl; rewrite <- ?app_assoc; reflexivity
             |eapply out_dispatch_failed; eassumption]].
  all: destruct response as [[|ch raw]|]; simpl;
    try (exists generation_failed,
           (rate_limit_trace env ++ evs
            ++ [Logged (ModelGenerationTime (selector_model (selector b)));
                Logged (GenerationError (Error "No response from model"))])%list;
         split; [rewrite Htr; simpl; rewrite <- ?app_assoc; reflexivity
                |eapply out_no_response; eauto]; fail).
  all: rewrite extractAndFinalize_spec;
    exists (extraction_response (sources b) (extract (String ch raw))),
      (rate_limit_trace env ++ evs
       ++ [Logged (ModelGenerationTime (selector_model (selector b)));
           Logged (ModelResponse (String ch raw))]
       ++ extraction_log (extract (String ch raw)))%list;
    (split; [rewrite Htr; simpl; rewrite <- ?app_assoc; reflexivity
            |eapply out_extraction; eassumption]).
Qed.

(** ** The response extractor *)

(** C2, as the handler has it: the raw text [{invalid json] holds no closing
    brace, so the pattern finds no span and the outcome is the one of a
    text without structured content, not the one of a span that fails to
    parse. *)
Lemma extract_unclosed_brace :
  extract "{invalid json" = NoStructuredContent.
Proof. reflexivity. Qed.

(** C2, amended: the extractor takes the span from the first opening brace
    to the last closing brace after it; on the example text it yields
    exactly the example report; a text without an opening brace, or
    without a closing brace, such as [{invalid json], has no structured
    content; a span that is not JSON, such as [{invalid json}], is
    malformed; and the handler answers with the response of that
    outcome. *)
Theorem extract_greedy_span :
  (forall raw span,
      jsonMatch raw = Some span <->
      exists pre mid post,
        raw = pre +:+ str1 open_brace +:+ mid +:+ str1 close_brace +:+ post /\
        lacks open_brace pre = true /\
        lacks close_brace post = true /\
        span = str1 open_brace +:+ mid +:+ str1 close_brace) /\
  extract Sample.report_text = Extracted (JObject Sample.report) /\
  (forall raw, lacks open_brace raw = true ->
               extract raw = NoStructuredContent) /\
  (forall raw, lacks close_brace raw = true ->
               extract raw = NoStructuredContent) /\
  extract "{invalid json" = NoStructuredContent /\
  extract "{invalid json}" = MalformedStructuredContent /\
  (forall sources raw tr,
      extract raw = NoStructuredContent ->
      extractAndFinalize sources raw tr = (Return invalid_report_format, tr)) /\
  (forall sources raw tr,
      extract raw = MalformedStructuredContent ->
      extractAndFinalize sources raw tr = (Return parse_failed, tr)).
Proof.
  split; [exact jsonMatch_span|].
  split; [vm_compute; reflexivity|].
  split; [intros raw H; unfold extract; rewrite (jsonMatch_no_open raw H);
          reflexivity|].
  split; [intros raw H; unfold extract; rewrite (jsonMatch_no_close raw H);
          reflexivity|].
  split; [reflexivity|].
  split; [vm_compute; reflexivity|].
  split; intros sources raw tr H; rewrite extractAndFinalize_spec, H;
    unfold extraction_log; rewrite app_nil_r; reflexivity.
Qed.

(** ** The prompt builder *)








(** ** Catalog checks *)

Lemma ends_differ (s1 s2 a b : string) :
  String.length a = String.length b -> a <> b -> s1 +:+ a <> s2 +:+ b.
Proof.
  intros Hlen Hne Heq. apply Hne.
  exact (append_same_length_tail s1 s2 a b Hlen Heq).
Qed.

Lemma platform_not_enabled_not_model_not_found (p m : string) :
  platform_not_enabled p <> model_not_found m.
Proof.
  unfold platform_not_enabled, model_not_found, error_response.
  intros [= H]. revert H.
  change (p +:+ " platform is not enabled")
    with (p +:+ " platform is not enable" +:+ "d").
  change (m +:+ " model does not exist")
    with (m +:+ " model does not exis" +:+ "t").
  rewrite <- !append_assoc.
  apply ends_differ; [reflexivity|discriminate].
Qed.

Lemma platform_not_enabled_not_model_disabled (p m : string) :
  platform_not_enabled p <> model_disabled m.
Proof.
  unfold platform_not_enabled, model_disabled, error_response.
  intros [= H]. revert H.
  change (p +:+ " platform is not enabled")
    with (p +:+ " platform is not" +:+ " enabled").
  change (m +:+ " model is disabled")
    with (m +:+ " model is " +:+ "disabled").
  rewrite <- !append_assoc.
  apply ends_differ; [reflexivity|discriminate].
Qed.

Lemma model_not_found_not_model_disabled (m m' : string) :
  model_not_found m <> model_disabled m'.
Proof.
  unfold model_not_found, model_disabled, error_response.
  intros [= H]. revert H.
  change (m +:+ " model does not exist")
    with (m +:+ " model does not exis" +:+ "t").
  change (m' +:+ " model is disabled")
    with (m' +:+ " model is disable" +:+ "d").
  rewrite <- !append_assoc.
  apply ends_differ; [reflexivity|discriminate].
Qed.

(** The responses a failed catalog check can be. *)
Lemma checkCatalog_failure (env : Env) (sel : string) (failure : Response) :
  checkCatalog env sel = Some failure ->
  failure = platform_not_enabled (selector_platform sel) \/
  failure = model_not_found (display (selector_model sel)) \/
  failure = model_disabled (display (selector_model sel)).
Proof.
  unfold checkCatalog.
  destruct (platforms (CONFIG env) !! selector_platform sel) as [pc|];
    [|intros [= <-]; auto].
  destruct (platform_enabled pc); [|intros [= <-]; auto].
  destruct (models pc !! display (selector_model sel)) as [mc|];
    [|intros [= <-]; auto].
  destruct (model_enabled mc); [discriminate|intros [= <-]; auto].
Qed.

(** C3, as the handler has it: a platform that is not in the catalog and
    a platform that is there but disabled get the same response; the two
    cases are one error, not two. *)
Lemma unknown_and_disabled_platform_alike :
  platforms (CONFIG (Sample.world false None Sample.catalog EmptyString))
    !! "openai"
  = Some {| platform_enabled := false;
            models := list_to_map [("gpt-4o", {| model_enabled := true |})] |}
  /\ platforms (CONFIG (Sample.world false None Sample.catalog_without_openai
                          EmptyString))
       !! "openai" = None
  /\ checkCatalog (Sample.world false None Sample.catalog EmptyString)
       "openai__gpt-4o"
     = checkCatalog
         (Sample.world false None Sample.catalog_without_openai EmptyString)
         "openai__gpt-4o"
  /\ checkCatalog (Sample.world false None Sample.catalog EmptyString)
       "openai__gpt-4o"
     = Some (platform_not_enabled "openai").
Proof. vm_compute. repeat split; reflexivity. Qed.

(** C3, amended: the catalog checks run in the order platform present and
    enabled, model present, model enabled, and surface three distinct
    errors: one for a platform that is unknown or disabled alike, one for
    an unknown model, one for a disabled model.  A selector that names a
    disabled platform gets the platform error whatever its model segment
    is, also when that model exists under the platform. *)
Theorem catalog_check_order (env : Env) (sel : string) :
  let platform := selector_platform sel in
  let model := display (selector_model sel) in
  (platforms (CONFIG env) !! platform = None ->
   checkCatalog env sel = Some (platform_not_enabled platform)) /\
  (forall pc,
      platforms (CONFIG env) !! platform = Some pc ->
      platform_enabled pc = false ->
      checkCatalog env sel = Some (platform_not_enabled platform) /\
      checkCatalog env sel <> Some (model_not_found model) /\
      checkCatalog env sel <> Some (model_disabled model)) /\
  (forall pc,
      platforms (CONFIG env) !! platform = Some pc ->
      platform_enabled pc = true ->
      models pc !! model = None ->
      checkCatalog env sel = Some (model_not_found model)) /\
  (forall pc mc,
      platforms (CONFIG env) !! platform = Some pc ->
      platform_enabled pc = true ->
      models pc !! model = Some mc ->
      model_enabled mc = false ->
      checkCatalog env sel = Some (model_disabled model)) /\
  (forall pc mc,
      platforms (CONFIG env) !! platform = Some pc ->
      platform_enabled pc = true ->
      models pc !! model = Some mc ->
      model_enabled mc = true ->
      checkCatalog env sel = None) /\
  (forall p m m',
      platform_not_enabled p <> model_not_found m /\
      platform_not_enabled p <> model_disabled m /\
      model_not_found m <> model_disabled m').
Proof.
  intros platform model. unfold checkCatalog.
  fold platform. fold model.
  split; [intros ->; reflexivity|].
  split.
  { intros pc -> ->. split; [reflexivity|].
    split; intros [= E].
    - exact (platform_not_enabled_not_model_not_found _ _
               (f_equal (fun msg => error_response msg 400) E)).
    - exact (platform_not_enabled_not_model_disabled _ _
               (f_equal (fun msg => error_response msg 400) E)). }
  split; [intros pc -> -> ->; reflexivity|].
  split; [intros pc mc -> -> -> ->; reflexivity|].
  split; [intros pc mc -> -> -> ->; reflexivity|].
  intros p m m'. split; [|split].
  - apply platform_not_enabled_not_model_not_found.
  - apply platform_not_enabled_not_model_disabled.
  - apply model_not_found_not_model_disabled.
Qed.

(** ** Paths of the handler *)

Lemma handle_inv (env : Env) (request : Request) (r : Response)
  (tr : list Event) :
  handle env request = (Return r, tr) -> Outcome env request r tr.
Proof.
  intros H. destruct (handle_outcome env request) as (r' & tr' & H' & Hout).
  rewrite H in H'. injection H' as -> ->. exact Hout.
Qed.

Lemma adapter_calls_rate_limit_trace (env : Env) :
  adapter_calls (rate_limit_trace env) = 0.
Proof.
  unfold rate_limit_trace. destruct (rateLimits_enabled (CONFIG env));
    reflexivity.
Qed.

Lemma adapter_calls_extraction_log (e : Extraction) :
  adapter_calls (extraction_log e) = 0.
Proof. destruct e as [[]| |]; reflexivity. Qed.

Lemma limiter_calls_extraction_log (e : Extraction) :
  limiter_calls (extraction_log e) = 0.
Proof. destruct e as [[]| |]; reflexivity. Qed.

Lemma status_catalog_failure (env : Env) (sel : string) (failure : Response) :
  checkCatalog env sel = Some failure -> status failure = 400.
Proof.
  intros H. destruct (checkCatalog_failure _ _ _ H) as [->|[->| ->]];
    reflexivity.
Qed.

Lemma extraction_response_ok (sources : option json) (e : Extraction) :
  status (extraction_response sources e) = 200 ->
  exists o, e = Extracted (JObject o).
Proof.
  destruct e as [[]| |]; simpl; try discriminate. eauto.
Qed.

Lemma split_dunder_no_separator (s : string) :
  has_separator s = false -> split_dunder s = [s].
Proof.
  induction s as [|c s IH]; [reflexivity|].
  destruct s as [|d s]; [reflexivity|].
  intros H. simpl in H. apply orb_false_iff in H as [Hcd Hs].
  change (split_dunder (String c (String d s)))
    with (if Ascii.eqb c "_" && Ascii.eqb d "_"
          then EmptyString :: split_dunder s
          else cons_char c (split_dunder (String d s))).
  rewrite Hcd, (IH Hs). reflexivity.
Qed.

Lemma selector_model_no_separator (sel : string) :
  has_separator sel = false -> selector_model sel = None.
Proof.
  intros H. unfold selector_model. rewrite (split_dunder_no_separator _ H).
  reflexivity.
Qed.

Lemma selector_platform_no_separator (sel : string) :
  has_separator sel = false -> selector_platform sel = sel.
Proof.
  intros H. unfold selector_platform. rewrite (split_dunder_no_separator _ H).
  reflexivity.
Qed.

(** Without a model segment no case of the [switch] applies, and no
    provider is called; the request ends in one of five failures. *)
Lemma no_model_segment (env : Env) (b : Body) :
  selector_model (selector b) = None ->
  exists r tr,
    handle env (Some b) = (Return r, tr) /\
    adapter_calls tr = 0 /\
    (r = rate_limited \/
     r = platform_not_enabled (selector_platform (selector b)) \/
     r = model_not_found "undefined" \/
     r = model_disabled "undefined" \/
     r = generation_failed).
Proof.
  intros Hm.
  destruct (handle_outcome env (Some b)) as (r & tr & H & Hout).
  exists r, tr. split; [exact H|].
  assert (Hsup : supported (selector_model (selector b)) = false)
    by (rewrite Hm; reflexivity).
  inversion Hout; subst; clear Hout.
  - split; [reflexivity|auto 6].
  - split; [reflexivity|auto].
  - split; [apply adapter_calls_rate_limit_trace|].
    match goal with
    | Hc : checkCatalog _ _ = Some _ |- _ =>
        destruct (checkCatalog_failure _ _ _ Hc) as [->|[->| ->]]
    end; rewrite ?Hm; simpl; auto 6.
  - split; [|auto 6].
    rewrite adapter_calls_app, adapter_calls_rate_limit_trace. reflexivity.
  - match goal with
    | Hr : DispatchRun _ _ _ _ |- _ =>
        destruct (run_unsupported _ _ _ _ Hr Hsup) as [_ ->]
    end.
    split; [|auto 6].
    rewrite adapter_calls_app, adapter_calls_rate_limit_trace. reflexivity.
  - match goal with
    | Hr : DispatchRun _ _ _ _ |- _ =>
        destruct (run_unsupported _ _ _ _ Hr Hsup) as [? _]
    end. discriminate.
  - match goal with
    | Hr : DispatchRun _ _ _ _ |- _ =>
        destruct (run_unsupported _ _ _ _ Hr Hsup) as [? _]
    end. discriminate.
Qed.

Lemma has_separator_spec (s : string) :
  has_separator s = true <-> occurs_in "__" s.
Proof.
  split.
  - induction s as [|c s IH]; [discriminate|].
    destruct s as [|d s]; [discriminate|].
    intros H. simpl in H. apply orb_true_iff in H as [H|H].
    + apply andb_true_iff in H as [Hc Hd].
      apply Ascii.eqb_eq in Hc, Hd. subst.
      exists EmptyString, s. reflexivity.
    + destruct (IH H) as (pre & post & E).
      exists (String c pre), post. rewrite E. reflexivity.
  - intros (pre & post & ->). induction pre as [|c pre IH].
    + reflexivity.
    + rewrite append_cons.
      destruct (pre +:+ "__" +:+ post) as [|d r] eqn:E; [discriminate|].
      simpl. simpl in IH. rewrite IH. apply orb_true_r.
Qed.

Lemma passes_when_limited (env : Env) :
  rate_limit_passes env = true ->
  rateLimits_enabled (CONFIG env) = true ->
  ratelimit_limit env = Some true.
Proof.
  unfold rate_limit_passes. intros H Hen. rewrite Hen in H.
  destruct (ratelimit_limit env) as [[|]|]; congruence.
Qed.

(** The limiter cannot both let a request pass and turn it down. *)
Ltac limiter_contradiction :=
  match goal with
  | Hen : rateLimits_enabled _ = true, Hp : rate_limit_passes _ = true |- _ =>
      pose proof (passes_when_limited _ Hp Hen); congruence
  end.

(** C4, as the handler has it: the selector [google] has no separator, and
    the request is answered with the response of an unknown model, the
    very response the selector [google__undefined] gets from the catalog
    check. *)
Lemma missing_separator_is_catalog_error :
  handle (Sample.world false None Sample.catalog EmptyString)
    (Some (Sample.request [] (Some "p") (Some "google")))
  = (Return (model_not_found "undefined"), [])
  /\ checkCatalog (Sample.world false None Sample.catalog EmptyString)
       "google__undefined"
     = Some (model_not_found "undefined").
Proof. vm_compute. split; reflexivity. Qed.

(** C4, amended: a selector without the separator has no model segment;
    the request always fails and no provider is called, but the failure is
    not a separate kind: it is the rate-limit response, one of the catalog
    responses (the platform named by the whole selector is not enabled, or
    the model [undefined] does not exist or is disabled), or the generic
    generation failure. *)
Theorem selector_without_separator (env : Env) (b : Body) (sel : string) :
  platformModel b = Some sel ->
  ~ occurs_in "__" sel ->
  exists r tr,
    handle env (Some b) = (Return r, tr) /\
    adapter_calls tr = 0 /\
    (r = rate_limited \/
     r = platform_not_enabled sel \/
     r = model_not_found "undefined" \/
     r = model_disabled "undefined" \/
     r = generation_failed).
Proof.
  intros Hsel Hsep.
  assert (Hno : has_separator sel = false).
  { destruct (has_separator sel) eqn:E; [|reflexivity].
    exfalso. apply Hsep, has_separator_spec, E. }
  assert (Hs : selector b = sel) by (unfold selector; rewrite Hsel; reflexivity).
  destruct (no_model_segment env b) as (r & tr & H & Hcalls & Hr).
  { rewrite Hs. exact (selector_model_no_separator _ Hno). }
  rewrite Hs, (selector_platform_no_separator _ Hno) in Hr.
  exists r, tr. auto.
Qed.

Lemma selector_without_separator_witness :
  exists r tr,
    handle (Sample.world false None Sample.catalog EmptyString)
      (Some (Sample.request [] (Some "p") (Some "google")))
    = (Return r, tr) /\
    adapter_calls tr = 0 /\
    (r = rate_limited \/
     r = platform_not_enabled "google" \/
     r = model_not_found "undefined" \/
     r = model_disabled "undefined" \/
     r = generation_failed).
Proof.
  apply (selector_without_separator
           (Sample.world false None Sample.catalog EmptyString)
           (Sample.request [] (Some "p") (Some "google")) "google").
  - reflexivity.
  - intros H. apply has_separator_spec in H. vm_compute in H. discriminate.
Defined.

(** C5: a request without [platformModel] is handled as the request with
    the selector [google-gemini-flash]; that text has no separator, so it
    names no model: no provider is called and the request fails, in every
    world. *)
Theorem default_selector_unresolved (env : Env) (b : Body) :
  platformModel b = None ->
  handle env (Some b)
  = handle env (Some (with_selector "google-gemini-flash" b)) /\
  exists r tr,
    handle env (Some b) = (Return r, tr) /\
    adapter_calls tr = 0 /\
    (r = rate_limited \/
     r = platform_not_enabled "google-gemini-flash" \/
     r = model_not_found "undefined" \/
     r = model_disabled "undefined" \/
     r = generation_failed).
Proof.
  intros Hnone. split.
  - unfold handle, Report.run, Report.POST, request_json, bind at 1 3, ret. simpl.
    rewrite Hnone. reflexivity.
  - assert (Hs : selector b = "google-gemini-flash")
      by (unfold selector; rewrite Hnone; reflexivity).
    destruct (no_model_segment env b) as (r & tr & H & Hcalls & Hr).
    { rewrite Hs. reflexivity. }
    rewrite Hs in Hr. exists r, tr. auto.
Qed.

Lemma default_selector_unresolved_witness :
  handle (Sample.world false None Sample.catalog Sample.report_text)
    (Some (Sample.request [] (Some "p") None))
  = handle (Sample.world false None Sample.catalog Sample.report_text)
      (Some (with_selector "google-gemini-flash"
               (Sample.request [] (Some "p") None))) /\
  exists r tr,
    handle (Sample.world false None Sample.catalog Sample.report_text)
      (Some (Sample.request [] (Some "p") None)) = (Return r, tr) /\
    adapter_calls tr = 0 /\
    (r = rate_limited \/
     r = platform_not_enabled "google-gemini-flash" \/
     r = model_not_found "undefined" \/
     r = model_disabled "undefined" \/
     r = generation_failed).
Proof.
  apply (default_selector_unresolved
           (Sample.world false None Sample.catalog Sample.report_text)
           (Sample.request [] (Some "p") None)).
  reflexivity.
Defined.

(** The sample catalog has the platform [google] and the model
    [gemini-flash] enabled, and a request that names no selector is
    answered with a client error. *)
Lemma default_selector_rejected :
  checkCatalog (Sample.world false None Sample.catalog Sample.report_text)
    "google__gemini-flash" = None /\
  handle (Sample.world false None Sample.catalog Sample.report_text)
    (Some (Sample.request [] (Some "p") None))
  = (Return (platform_not_enabled "google-gemini-flash"), []).
Proof. vm_compute. split; reflexivity. Qed.

(** ** Validation of the request *)

Lemma adapter_call_exists (evs : list Event) :
  adapter_calls evs = 1 ->
  exists ev, In ev evs /\ is_adapter_call ev = true.
Proof.
  unfold adapter_calls. induction evs as [|e evs IH]; simpl; [discriminate|].
  destruct (is_adapter_call e) eqn:He.
  - intros _. exists e. auto.
  - intros H. destruct (IH H) as (ev & Hin & Hev). exists ev. auto.
Qed.

Lemma adapter_call_prompt (sp : string) (evs : list Event) (ev : Event) :
  forallb (fun e => match event_prompt e with
                    | Some p => String.eqb p sp
                    | None => true
                    end) evs = true ->
  In ev evs -> is_adapter_call ev = true -> event_prompt ev = Some sp.
Proof.
  intros Hall Hin Hev. rewrite forallb_forall in Hall.
  specialize (Hall ev Hin).
  destruct ev; simpl in *; try discriminate;
    apply String.eqb_eq in Hall; subst; reflexivity.
Qed.

(** A request that passes the rate limit and the catalog, with a model the
    [switch] knows, reaches its provider once, with the prompt built from
    its articles and its prompt text. *)
Lemma provider_reached (env : Env) (b : Body) (articles : list Article) :
  rate_limit_passes env = true ->
  checkCatalog env (selector b) = None ->
  supported (selector_model (selector b)) = true ->
  selectedResults b = Some articles ->
  exists r tr ev,
    handle env (Some b) = (Return r, tr) /\
    adapter_calls tr = 1 /\
    In ev tr /\
    is_adapter_call ev = true /\
    event_prompt ev = Some (generateSystemPrompt articles (display (prompt b))).
Proof.
  intros Hpass Hcat Hsup Hart.
  destruct (handle_outcome env (Some b)) as (r & tr & H & Hout).
  exists r, tr.
  inversion Hout; subst; clear Hout; try limiter_contradiction;
    try congruence.
  all: match goal with
       | Ha : selectedResults _ = Some ?a |- _ =>
           rewrite Hart in Ha; injection Ha as Ha; subst a
       end.
  all: match goal with
       | Hr : DispatchRun _ _ _ ?evs |- _ =>
           pose proof (run_adapter_calls _ _ _ _ Hr) as Hone;
           pose proof (run_prompts _ _ _ _ Hr) as Hprompts;
           rewrite Hsup in Hone;
           destruct (adapter_call_exists evs Hone) as (ev & Hin & Hev)
       end.
  all: exists ev; split; [exact H|]; split;
    [rewrite !adapter_calls_app, adapter_calls_rate_limit_trace, Hone,
       ?adapter_calls_extraction_log; reflexivity|];
    split; [apply in_or_app; right; apply in_or_app; left; exact Hin|];
    split; [exact Hev|];
    exact (adapter_call_prompt _ _ _ Hprompts Hin Hev).
Qed.

(** C6, as the handler has it: a request with an empty prompt, and one
    with no prompt at all, both with no articles, are answered with the
    report; the provider is called once. *)
Lemma empty_prompt_accepted :
  fst (handle (Sample.world false None Sample.catalog Sample.report_text)
         (Some (Sample.request [] (Some EmptyString)
                  (Some "google__gemini-flash"))))
  = Return (ok_response
              (JObject (Sample.report ++ [("sources", Sample.provenance)])))
  /\ adapter_calls
       (snd (handle (Sample.world false None Sample.catalog Sample.report_text)
               (Some (Sample.request [] (Some EmptyString)
                        (Some "google__gemini-flash"))))) = 1
  /\ fst (handle (Sample.world false None Sample.catalog Sample.report_text)
            (Some (Sample.request [] None (Some "google__gemini-flash"))))
     = Return (ok_response
                 (JObject (Sample.report ++ [("sources", Sample.provenance)])))
  /\ adapter_calls
       (snd (handle (Sample.world false None Sample.catalog Sample.report_text)
               (Some (Sample.request [] None
                        (Some "google__gemini-flash"))))) = 1.
Proof. vm_compute. repeat split; reflexivity. Qed.

(** C6, amended: the handler has no validation step.  Whatever the prompt
    of the request is (a text, the empty text, or none, which is printed
    as [undefined]) and whatever its list of articles is (the empty list
    too), a request that passes the rate limit and the catalog with a
    model the [switch] knows reaches its provider, once, with the prompt
    built from these articles and this prompt text. *)
Theorem prompt_not_validated (env : Env) (b : Body) (articles : list Article) :
  rate_limit_passes env = true ->
  checkCatalog env (selector b) = None ->
  supported (selector_model (selector b)) = true ->
  selectedResults b = Some articles ->
  exists r tr ev,
    handle env (Some b) = (Return r, tr) /\
    adapter_calls tr = 1 /\
    In ev tr /\
    is_adapter_call ev = true /\
    event_prompt ev = Some (generateSystemPrompt articles (display (prompt b))).
Proof. exact (provider_reached env b articles). Qed.

Lemma prompt_not_validated_witness :
  exists r tr ev,
    handle (Sample.world false None Sample.catalog Sample.report_text)
      (Some (Sample.request [] None (Some "google__gemini-flash")))
    = (Return r, tr) /\
    adapter_calls tr = 1 /\
    In ev tr /\
    is_adapter_call ev = true /\
    event_prompt ev = Some (generateSystemPrompt [] "undefined").
Proof.
  apply (prompt_not_validated
           (Sample.world false None Sample.catalog Sample.report_text)
           (Sample.request [] None (Some "google__gemini-flash")) []);
    vm_compute; reflexivity.
Defined.

(** ** Failures and success *)




(** What a successful response tells. *)
Lemma success_inv (env : Env) (request : Request) (r : Response)
  (tr : list Event) :
  handle env request = (Return r, tr) ->
  status r = 200 ->
  exists b raw o,
    request = Some b /\
    In (Logged (ModelResponse raw)) tr /\
    extract raw = Extracted (JObject o) /\
    r = ok_response (JObject (with_sources (sources b) o)).
Proof.
  intros H Hok. apply handle_inv in H.
  inversion H; subst; clear H; try discriminate.
  - match goal with
    | Hc : checkCatalog _ _ = Some _ |- _ =>
        rewrite (status_catalog_failure _ _ _ Hc) in Hok; discriminate
    end.
  - destruct (extraction_response_ok _ _ Hok) as [o Ho].
    exists b, (String c raw), o. split; [reflexivity|].
    split; [|split; [exact Ho|rewrite Ho; reflexivity]].
    apply in_or_app. right. apply in_or_app. right.
    apply in_or_app. left. right. left. reflexivity.
Qed.

Lemma obj_get_set_eq (k : string) (v : json) (o : list (string * json)) :
  obj_get k (obj_set k v o) = Some v.
Proof.
  induction o as [|[k' v'] o IH]; simpl.
  - rewrite String.eqb_refl. reflexivity.
  - destruct (String.eqb k k') eqn:E; simpl.
    + rewrite String.eqb_refl. reflexivity.
    + rewrite E. exact IH.
Qed.

Lemma obj_get_set_ne (k k' : string) (v : json) (o : list (string * json)) :
  k' <> k -> obj_get k' (obj_set k v o) = obj_get k' o.
Proof.
  intros Hne. induction o as [|[k0 v0] o IH]; simpl.
  - destruct (String.eqb_spec k' k); [contradiction|reflexivity].
  - destruct (String.eqb_spec k k0) as [->|]; simpl.
    + destruct (String.eqb_spec k' k0); [contradiction|reflexivity].
    + rewrite IH. reflexivity.
Qed.

Lemma obj_get_delete_eq (k : string) (o : list (string * json)) :
  obj_get k (obj_delete k o) = None.
Proof.
  induction o as [|[k' v'] o IH]; simpl; [reflexivity|].
  destruct (String.eqb k k') eqn:E; simpl; [exact IH|].
  rewrite E. exact IH.
Qed.

Lemma obj_get_delete_ne (k k' : string) (o : list (string * json)) :
  k' <> k -> obj_get k' (obj_delete k o) = obj_get k' o.
Proof.
  intros Hne. induction o as [|[k0 v0] o IH]; simpl; [reflexivity|].
  destruct (String.eqb_spec k k0) as [->|]; simpl.
  - rewrite IH. destruct (String.eqb_spec k' k0); [contradiction|reflexivity].
  - rewrite IH. reflexivity.
Qed.

Lemma with_sources_get (sources : option json) (o : list (string * json)) :
  obj_get "sources" (with_sources sources o) = sources.
Proof.
  destruct sources as [v|]; simpl.
  - apply obj_get_set_eq.
  - apply obj_get_delete_eq.
Qed.

Lemma with_sources_other (sources : option json) (o : list (string * json))
  (k : string) :
  k <> "sources" -> obj_get k (with_sources sources o) = obj_get k o.
Proof.
  intros Hne. destruct sources as [v|]; simpl.
  - apply obj_get_set_ne. exact Hne.
  - apply obj_get_delete_ne. exact Hne.
Qed.



(** *** The handler on any file system *)

Section AnyFileSystem.

Variable fs : FileSystem Event LogLine.
Variable env : Env.

#[local] Arguments Report.dispatch : simpl never.
#[local] Arguments jsonMatch : simpl never.
#[local] Arguments JSON.parse : simpl never.



End AnyFileSystem.




(** C8: a successful response is the extracted document with its
    [sources] member set to the value the request came with (left out
    when the request has none); every other member is the one of the
    extracted document, and a [sources] member the model wrote itself is
    replaced. *)
Theorem sources_attached (env : Env) (request : Request) (r : Response)
  (tr : list Event) :
  handle env request = (Return r, tr) ->
  status r = 200 ->
  exists b raw o o',
    request = Some b /\
    In (Logged (ModelResponse raw)) tr /\
    extract raw = Extracted (JObject o) /\
    body r = JObject o' /\
    obj_get "sources" o' = sources b /\
    forall k, k <> "sources" -> obj_get k o' = obj_get k o.
Proof.
  intros H Hok.
  destruct (success_inv env request r tr H Hok)
    as (b & raw & o & -> & Hin & He & ->).
  exists b, raw, o, (with_sources (sources b) o).
  split; [reflexivity|]. split; [exact Hin|]. split; [exact He|].
  split; [reflexivity|]. split; [apply with_sources_get|].
  intros k. apply with_sources_other.
Qed.

Lemma sources_attached_witness :
  exists b raw o o',
    Some (Sample.request [Sample.article] (Some "p")
            (Some "google__gemini-flash")) = Some b /\
    In (Logged (ModelResponse raw))
      [ GeminiCalled geminiFlashModel
          (generateSystemPrompt [Sample.article] "p");
        Logged (GeminiTime "gemini-flash");
        Logged (ModelGenerationTime (Some "gemini-flash"));
        Logged (ModelResponse Sample.report_text_with_sources);
        Logged TotalTime ] /\
    extract raw = Extracted (JObject o) /\
    body (ok_response
            (JObject [("sources", Sample.provenance); ("title", JString "T")]))
    = JObject o' /\
    obj_get "sources" o' = sources b /\
    forall k, k <> "sources" -> obj_get k o' = obj_get k o.
Proof.
  apply (sources_attached
           (Sample.world false None Sample.catalog
              Sample.report_text_with_sources)
           (Some (Sample.request [Sample.article] (Some "p")
                    (Some "google__gemini-flash")))
           (ok_response
              (JObject [("sources", Sample.provenance);
                        ("title", JString "T")]))
           [ GeminiCalled geminiFlashModel
               (generateSystemPrompt [Sample.article] "p");
             Logged (GeminiTime "gemini-flash");
             Logged (ModelGenerationTime (Some "gemini-flash"));
             Logged (ModelResponse Sample.report_text_with_sources);
             Logged TotalTime ]).
  - vm_compute. reflexivity.
  - reflexivity.
Defined.

(** The completion of the sample names [sources] itself; the response
    carries the sources of the request instead. *)
Lemma model_sources_replaced :
  extract Sample.report_text_with_sources
  = Extracted (JObject [("sources", JArray [JNumber "1"]);
                        ("title", JString "T")])
  /\ fst (handle (Sample.world false None Sample.catalog
                    Sample.report_text_with_sources)
            (Some (Sample.request [Sample.article] (Some "p")
                     (Some "google__gemini-flash"))))
     = Return (ok_response
                 (JObject [("sources", Sample.provenance);
                           ("title", JString "T")])).
Proof. vm_compute. split; reflexivity. Qed.



(** ** Rate limiting *)



(** ** Sample runs *)

Example split_dunder_selector :
  split_dunder "google__gemini-flash" = ["google"; "gemini-flash"].
Proof. reflexivity. Qed.

Example split_dunder_leftmost :
  split_dunder "a___b__c" = ["a"; "_b"; "c"].
Proof. reflexivity. Qed.

Example jsonMatch_first_to_last :
  jsonMatch "a{b}c{d}e}f{" = Some "{b}c{d}e}".
Proof. reflexivity. Qed.

Example jsonMatch_close_before_open : jsonMatch "a}b{c" = None.
Proof. reflexivity. Qed.

Example parse_repeated_member :
  JSON.parse ("{" +:+ quoted "a" +:+ ":1," +:+ quoted "b" +:+ ":[true,null],"
              +:+ quoted "a" +:+ ":-2.5e3}")
  = Some (JObject [("a", JNumber "-2.5e3");
                   ("b", JArray [JBool true; JNull])]).
Proof. vm_compute. reflexivity. Qed.

(** The example report, from the request to the response. *)
Example report_generated :
  handle (Sample.world true (Some true) Sample.catalog Sample.report_text)
    (Some (Sample.request [Sample.article] (Some "p")
             (Some "google__gemini-flash")))
  = (Return (ok_response
               (JObject (Sample.report ++ [("sources", Sample.provenance)]))),
     [ RateLimitConsulted;
       Logged RateLimitTime;
       GeminiCalled geminiFlashModel
         (generateSystemPrompt [Sample.article] "p");
       Logged (GeminiTime "gemini-flash");
       Logged (ModelGenerationTime (Some "gemini-flash"));
       Logged (ModelResponse Sample.report_text);
       Logged TotalTime ]).
Proof. vm_compute. reflexivity. Qed.

(** A request the limiter turns down, with a selector the catalog does not
    know. *)
Example request_rate_limited :
  handle (Sample.world true (Some false) Sample.catalog Sample.report_text)
    (Some (Sample.request [] (Some "p") (Some "nowhere__nothing")))
  = (Return rate_limited, [RateLimitConsulted; Logged RateLimitTime]).
Proof. vm_compute. reflexivity. Qed.

(** A disabled model: a client error, and no provider call. *)
Example request_disabled_model :
  handle (Sample.world false None Sample.catalog Sample.report_text)
    (Some (Sample.request [] (Some "p") (Some "google__gemini-exp")))
  = (Return (model_disabled "gemini-exp"), []).
Proof. vm_compute. reflexivity. Qed.

(** A provider that rejects the call. *)
Example request_provider_failure :
  handle
    {| CONFIG := {| rateLimits_enabled := false;
                    platforms := Sample.catalog |};
       ratelimit_limit := None;
       gemini_generateContent := fun _ _ => Rejected;
       openai_create := fun _ _ => Rejected;
       anthropic_create := fun _ _ _ _ => Rejected |}
    (Some (Sample.request [] (Some "p") (Some "google__gemini-flash")))
  = (Return generation_failed,
     [ GeminiCalled geminiFlashModel (generateSystemPrompt [] "p");
       Logged (ModelGenerationTime (Some "gemini-flash"));
       Logged (GenerationError ProviderError) ]).
Proof. vm_compute. reflexivity. Qed.

(** A completion that holds no brace, and one whose span is not JSON. *)
Example request_without_structured_content :
  fst (handle (Sample.world false None Sample.catalog "no report, sorry")
         (Some (Sample.request [] (Some "p") (Some "google__gemini-flash"))))
  = Return invalid_report_format
  /\ fst (handle (Sample.world false None Sample.catalog "{invalid json}")
            (Some (Sample.request [] (Some "p")
                     (Some "google__gemini-flash"))))
     = Return parse_failed.
Proof. vm_compute. split; reflexivity. Qed.

(** * Further properties of the report route *)

(** ** Selectors *)

Lemma cons_char_cons (c : ascii) (seg : string) (segs : list string) :
  cons_char c (seg :: segs) = String c seg :: segs.
Proof. reflexivity. Qed.

(** The first separator after a separator-free text that does not end in
    an underscore is where the text is cut. *)
Lemma split_dunder_first (p rest : string) :
  has_separator p = false ->
  ends_with_underscore p = false ->
  split_dunder (p +:+ "__" +:+ rest) = p :: split_dunder rest.
Proof.
  induction p as [|c p IH]; intros Hsep Hend; [reflexivity|].
  destruct p as [|d p].
  - simpl in Hend.
    change (split_dunder (String c EmptyString +:+ "__" +:+ rest))
      with (if Ascii.eqb c "_" && Ascii.eqb "_" "_"
            then EmptyString :: split_dunder (String "_" rest)
            else cons_char c (split_dunder ("__" +:+ rest))).
    rewrite Hend. reflexivity.
  - simpl in Hsep. apply orb_false_iff in Hsep as [Hcd Hsep].
    change (split_dunder (String c (String d p) +:+ "__" +:+ rest))
      with (if Ascii.eqb c "_" && Ascii.eqb d "_"
            then EmptyString :: split_dunder (p +:+ "__" +:+ rest)
            else cons_char c (split_dunder (String d p +:+ "__" +:+ rest))).
    rewrite Hcd, (IH Hsep Hend). reflexivity.
Qed.

(** X1: a selector made of a platform name, the separator and a model
    name is read back as that platform and that model, when neither name
    holds the separator and the platform name does not end in an
    underscore. *)
Theorem selector_segments (p m : string) :
  has_separator p = false ->
  ends_with_underscore p = false ->
  has_separator m = false ->
  selector_platform (p +:+ "__" +:+ m) = p /\
  selector_model (p +:+ "__" +:+ m) = Some m.
Proof.
  intros Hp Hend Hm. unfold selector_platform, selector_model.
  rewrite (split_dunder_first p m Hp Hend), (split_dunder_no_separator m Hm).
  split; reflexivity.
Qed.

Lemma selector_segments_witness :
  selector_platform ("google" +:+ "__" +:+ "gemini-flash") = "google" /\
  selector_model ("google" +:+ "__" +:+ "gemini-flash") = Some "gemini-flash".
Proof.
  apply (selector_segments "google" "gemini-flash"); reflexivity.
Defined.

(** Requests whose selectors have the same first two segments are handled
    alike. *)
Lemma handle_by_segments (env : Env) (b : Body) (sel1 sel2 : string) :
  selector_platform sel1 = selector_platform sel2 ->
  selector_model sel1 = selector_model sel2 ->
  handle env (Some (with_selector sel1 b))
  = handle env (Some (with_selector sel2 b)).
Proof.
  intros Hp Hm.
  unfold handle, Report.run, Report.POST, request_json, bind at 1 3, ret. simpl.
  unfold checkCatalog. rewrite Hp, Hm. reflexivity.
Qed.

(** X2: what follows a second separator in the selector is ignored: the
    request is handled as the one whose selector stops before it. *)
Theorem trailing_segments_ignored (env : Env) (b : Body)
  (p m rest : string) :
  has_separator p = false ->
  ends_with_underscore p = false ->
  has_separator m = false ->
  ends_with_underscore m = false ->
  handle env (Some (with_selector (p +:+ "__" +:+ m +:+ "__" +:+ rest) b))
  = handle env (Some (with_selector (p +:+ "__" +:+ m) b)).
Proof.
  intros Hp Hpe Hm Hme.
  apply handle_by_segments.
  - unfold selector_platform.
    rewrite !(split_dunder_first p _ Hp Hpe). reflexivity.
  - unfold selector_model.
    rewrite !(split_dunder_first p _ Hp Hpe), (split_dunder_first m _ Hm Hme),
      (split_dunder_no_separator m Hm).
    reflexivity.
Qed.

Lemma trailing_segments_ignored_witness :
  handle (Sample.world false None Sample.catalog Sample.report_text)
    (Some (with_selector
             ("google" +:+ "__" +:+ "gemini-flash" +:+ "__" +:+ "v2")
             (Sample.request [] (Some "p") None)))
  = handle (Sample.world false None Sample.catalog Sample.report_text)
      (Some (with_selector ("google" +:+ "__" +:+ "gemini-flash")
               (Sample.request [] (Some "p") None))).
Proof.
  apply (trailing_segments_ignored
           (Sample.world false None Sample.catalog Sample.report_text)
           (Sample.request [] (Some "p") None)
           "google" "gemini-flash" "v2"); reflexivity.
Defined.

(** ** Extraction *)

(** X3: prose around the braces does not change what is extracted: with
    no opening brace before the span and no closing brace after it, the
    text is extracted as the span alone, and the span is its own match. *)
Theorem extract_ignores_prose (pre mid post : string) :
  lacks open_brace pre = true ->
  lacks close_brace post = true ->
  jsonMatch (str1 open_brace +:+ mid +:+ str1 close_brace)
  = Some (str1 open_brace +:+ mid +:+ str1 close_brace) /\
  extract (pre +:+ str1 open_brace +:+ mid +:+ str1 close_brace +:+ post)
  = extract (str1 open_brace +:+ mid +:+ str1 close_brace).
Proof.
  intros Hpre Hpost.
  assert (H1 : jsonMatch (str1 open_brace +:+ mid +:+ str1 close_brace)
               = Some (str1 open_brace +:+ mid +:+ str1 close_brace)).
  { apply jsonMatch_span. exists EmptyString, mid, EmptyString.
    rewrite append_nil_l, append_nil_r. repeat split. }
  assert (H2 : jsonMatch (pre +:+ str1 open_brace +:+ mid +:+ str1 close_brace
                          +:+ post)
               = Some (str1 open_brace +:+ mid +:+ str1 close_brace)).
  { apply jsonMatch_span. exists pre, mid, post. repeat split; assumption. }
  split; [exact H1|]. unfold extract. rewrite H1, H2. reflexivity.
Qed.

Lemma extract_ignores_prose_witness :
  jsonMatch (str1 open_brace +:+ "}{" +:+ str1 close_brace)
  = Some (str1 open_brace +:+ "}{" +:+ str1 close_brace) /\
  extract ("Sure:" +:+ str1 open_brace +:+ "}{" +:+ str1 close_brace
           +:+ " Done.")
  = extract (str1 open_brace +:+ "}{" +:+ str1 close_brace).
Proof.
  apply (extract_ignores_prose "Sure:" "}{" " Done."); reflexivity.
Defined.

(** ** Calls to the limiter and to the providers *)

Lemma limiter_calls_rate_limit_trace (env : Env) :
  limiter_calls (rate_limit_trace env)
  = if rateLimits_enabled (CONFIG env) then 1 else 0.
Proof.
  unfold rate_limit_trace. destruct (rateLimits_enabled (CONFIG env));
    reflexivity.
Qed.

Lemma adapter_calls_cons (e : Event) (tr : list Event) :
  adapter_calls (e :: tr)
  = (if is_adapter_call e then 1 else 0) + adapter_calls tr.
Proof. unfold adapter_calls. simpl. destruct (is_adapter_call e); reflexivity. Qed.

Lemma limiter_calls_cons (e : Event) (tr : list Event) :
  limiter_calls (e :: tr)
  = (if is_limiter_call e then 1 else 0) + limiter_calls tr.
Proof. unfold limiter_calls. simpl. destruct (is_limiter_call e); reflexivity. Qed.

(** The calls a path of the handler makes, from its trace. *)
Ltac count_calls :=
  rewrite ?adapter_calls_app, ?limiter_calls_app,
    ?adapter_calls_cons, ?limiter_calls_cons,
    ?adapter_calls_rate_limit_trace, ?limiter_calls_rate_limit_trace,
    ?adapter_calls_extraction_log, ?limiter_calls_extraction_log;
  try match goal with
      | Hr : DispatchRun _ _ _ _ |- _ =>
          rewrite ?(run_adapter_calls _ _ _ _ Hr),
            ?(run_limiter_calls _ _ _ _ Hr)
      end;
  unfold adapter_calls, limiter_calls; simpl.

(** X4: no request makes more than one provider call, and none consults
    the rate limiter more than once. *)
Theorem one_call_at_most (env : Env) (request : Request) :
  adapter_calls (snd (handle env request)) <= 1 /\
  limiter_calls (snd (handle env request)) <= 1.
Proof.
  destruct (handle_outcome env request) as (r & tr & H & Hout).
  rewrite H. simpl.
  inversion Hout; subst; clear Hout; count_calls;
    destruct (rateLimits_enabled (CONFIG env));
    try destruct (supported (selector_model (selector b)));
    split; lia.
Qed.

Lemma normal_supported (sp : string) (model : option string)
  (response : option string) (evs : list Event) :
  DispatchRun sp model (Normal response) evs -> supported model = true.
Proof.
  intros Hrun. destruct (supported model) eqn:Hsup; [reflexivity|].
  destruct (run_unsupported _ _ _ _ Hrun Hsup) as [H _]. discriminate.
Qed.

(** X5: the status of the response tells how many provider calls were
    made: one behind a report, none behind a client error, and none
    behind the rate-limit response, which follows one consultation of the
    limiter. *)
Theorem calls_by_status (env : Env) (request : Request) (r : Response)
  (tr : list Event) :
  handle env request = (Return r, tr) ->
  (status r = 200 -> adapter_calls tr = 1) /\
  (status r = 400 -> adapter_calls tr = 0) /\
  (status r = 429 -> adapter_calls tr = 0 /\ limiter_calls tr = 1).
Proof.
  intros H. apply handle_inv in H.
  inversion H as [ | | | b failure Hpass Hcat | | | | b articles c raw evs
                     Hpass Hcat Hart Hd Hrun ];
    subst; clear H.
  all: try (pose proof (status_catalog_failure _ _ _ Hcat) as Hfail).
  all: try (pose proof (normal_supported _ _ _ _ Hrun) as Hsup).
  all: repeat split; intros;
    try match goal with
        | Hst : status _ = _ |- _ =>
            simpl in Hst; rewrite ?Hfail in Hst; try discriminate Hst
        end;
    try reflexivity.
  - apply adapter_calls_rate_limit_trace.
  - count_calls. rewrite Hsup. reflexivity.
  - match goal with
    | Hst : status _ = _ |- _ =>
        destruct (extract (String c raw)) as [[]| |]; discriminate Hst
    end.
  - match goal with
    | Hst : status _ = _ |- _ =>
        destruct (extract (String c raw)) as [[]| |]; discriminate Hst
    end.
  - match goal with
    | Hst : status _ = _ |- _ =>
        destruct (extract (String c raw)) as [[]| |]; discriminate Hst
    end.
Qed.

Lemma calls_by_status_witness :
  (status (ok_response
             (JObject (Sample.report ++ [("sources", Sample.provenance)])))
   = 200 ->
   adapter_calls
     [ GeminiCalled geminiFlashModel (generateSystemPrompt [] "p");
       Logged (GeminiTime "gemini-flash");
       Logged (ModelGenerationTime (Some "gemini-flash"));
       Logged (ModelResponse Sample.report_text);
       Logged TotalTime ] = 1) /\
  (status (ok_response
             (JObject (Sample.report ++ [("sources", Sample.provenance)])))
   = 400 ->
   adapter_calls
     [ GeminiCalled geminiFlashModel (generateSystemPrompt [] "p");
       Logged (GeminiTime "gemini-flash");
       Logged (ModelGenerationTime (Some "gemini-flash"));
       Logged (ModelResponse Sample.report_text);
       Logged TotalTime ] = 0) /\
  (status (ok_response
             (JObject (Sample.report ++ [("sources", Sample.provenance)])))
   = 429 ->
   adapter_calls
     [ GeminiCalled geminiFlashModel (generateSystemPrompt [] "p");
       Logged (GeminiTime "gemini-flash");
       Logged (ModelGenerationTime (Some "gemini-flash"));
       Logged (ModelResponse Sample.report_text);
       Logged TotalTime ] = 0 /\
   limiter_calls
     [ GeminiCalled geminiFlashModel (generateSystemPrompt [] "p");
       Logged (GeminiTime "gemini-flash");
       Logged (ModelGenerationTime (Some "gemini-flash"));
       Logged (ModelResponse Sample.report_text);
       Logged TotalTime ] = 1).
Proof.
  apply (calls_by_status
           (Sample.world false None Sample.catalog Sample.report_text)
           (Some (Sample.request [] (Some "p") (Some "google__gemini-flash")))).
  vm_compute. reflexivity.
Defined.

(** X6: with rate limiting enabled, the first thing a readable request
    does is to consult the rate limiter, and it does so once. *)
Theorem limiter_consulted_first (env : Env) (b : Body) :
  rateLimits_enabled (CONFIG env) = true ->
  exists rest,
    snd (handle env (Some b)) = RateLimitConsulted :: rest /\
    limiter_calls (snd (handle env (Some b))) = 1.
Proof.
  intros Hen.
  assert (Htr : rate_limit_trace env
                = [RateLimitConsulted; Logged RateLimitTime])
    by (unfold rate_limit_trace; rewrite Hen; reflexivity).
  destruct (handle_outcome env (Some b)) as (r & tr & H & Hout).
  rewrite H. simpl.
  inversion Hout; subst; clear Hout;
    try (eexists; split; [reflexivity|reflexivity]);
    rewrite Htr; simpl;
    (eexists; split; [reflexivity|]);
    match goal with
    | |- limiter_calls (?e1 :: ?e2 :: ?l) = 1 =>
        change (limiter_calls ([e1; e2] ++ l) = 1)
    end;
    count_calls; rewrite ?Hen; reflexivity.
Qed.

Lemma limiter_consulted_first_witness :
  exists rest,
    snd (handle (Sample.world true (Some true) Sample.catalog
                   Sample.report_text)
           (Some (Sample.request [] (Some "p") (Some "google__gemini-flash"))))
    = RateLimitConsulted :: rest /\
    limiter_calls
      (snd (handle (Sample.world true (Some true) Sample.catalog
                      Sample.report_text)
              (Some (Sample.request [] (Some "p")
                       (Some "google__gemini-flash"))))) = 1.
Proof.
  apply (limiter_consulted_first
           (Sample.world true (Some true) Sample.catalog Sample.report_text)
           (Sample.request [] (Some "p") (Some "google__gemini-flash"))).
  reflexivity.
Defined.

(** ** Which provider is called *)

Lemma is_case_true (model : option string) (label : string) :
  is_case model label = true -> model = Some label.
Proof.
  destruct model as [m|]; simpl; [|discriminate].
  unfold is_case. intros H. apply String.eqb_eq in H. subst. reflexivity.
Qed.

Lemma dispatch_routed (env : Env) (sp : string) (model : option string)
  (tr : list Event) :
  exists evs,
    snd (dispatch env sp model tr) = (tr ++ evs)%list /\
    Forall (routed model) evs.
Proof.
  open_adapters. simpl.
  repeat (split_innermost; simpl);
    rewrite <- ?app_assoc; simpl;
    try (exists []; rewrite app_nil_r; split; [reflexivity|constructor]);
    (eexists; split; [reflexivity|]);
    repeat match goal with
           | H : is_case _ _ = true |- _ => apply is_case_true in H
           | H : is_case _ _ = false |- _ => clear H
           end;
    subst;
    repeat match goal with
           | |- Forall _ (_ :: _) => constructor
           | |- Forall _ [] => constructor
           end;
    simpl; try exact I; auto 10.
Qed.

(** X7: every provider call of a request is the one its model segment
    stands for: the three Gemini names reach their Gemini client, the four
    OpenAI names are passed on as they are, and the two Anthropic names
    reach [claude-3-5-sonnet-latest] and [claude-3-5-haiku-latest] with
    [max_tokens] 3500 and temperature 0.9. *)
Theorem provider_calls_routed (env : Env) (b : Body) :
  Forall (routed (selector_model (selector b))) (snd (handle env (Some b))).
Proof.
  destruct (handle_outcome env (Some b)) as (r & tr & H & Hout).
  rewrite H. simpl.
  assert (Hrl : Forall (routed (selector_model (selector b)))
                  (rate_limit_trace env)).
  { unfold rate_limit_trace. destruct (rateLimits_enabled (CONFIG env));
      repeat constructor. }
  assert (Hlog : forall e,
             Forall (routed (selector_model (selector b)))
               (extraction_log e)).
  { intros [[]| |]; repeat constructor. }
  inversion Hout; subst; clear Hout;
    try (repeat constructor; fail);
    try exact Hrl;
    repeat (apply Forall_app; split);
    try exact Hrl; try apply Hlog; try (repeat constructor; fail).
  all: match goal with
       | Hd : dispatch _ ?sp ?m ?tr0 = (_, (?tr0 ++ ?evs)%list) |- _ =>
           destruct (dispatch_routed env sp m tr0) as (evs' & He & Hall);
           rewrite Hd in He; simpl in He;
           apply app_inv_head in He; subst evs'; exact Hall
       end.
Qed.

(** ** The provider call and what follows it *)

(** X8: once a request is past the rate limit and the catalog and has
    its articles, the line that times the model generation is written,
    however the provider call ends (the [finally] block). *)
Theorem generation_time_logged (env : Env) (b : Body)
  (articles : list Article) :
  rate_limit_passes env = true ->
  checkCatalog env (selector b) = None ->
  selectedResults b = Some articles ->
  In (Logged (ModelGenerationTime (selector_model (selector b))))
    (snd (handle env (Some b))).
Proof.
  intros Hpass Hcat Hart.
  destruct (handle_outcome env (Some b)) as (r & tr & H & Hout).
  rewrite H. simpl.
  inversion Hout; subst; clear Hout; try limiter_contradiction;
    try congruence;
    apply in_or_app; right; apply in_or_app; right; left; reflexivity.
Qed.

Lemma generation_time_logged_witness :
  In (Logged (ModelGenerationTime
                (selector_model
                   (selector (Sample.request [] (Some "p")
                                (Some "google__gemini-flash"))))))
    (snd (handle (silent_world true)
            (Some (Sample.request [] (Some "p")
                     (Some "google__gemini-flash"))))).
Proof.
  apply (generation_time_logged (silent_world true)
           (Sample.request [] (Some "p") (Some "google__gemini-flash")) []);
    vm_compute; reflexivity.
Defined.

(** The provider adapters never write a completion line. *)
Lemma dispatch_no_completion_line (env : Env) (sp : string)
  (model : option string) (tr : list Event) :
  existsb is_completion_line tr = false ->
  existsb is_completion_line (snd (dispatch env sp model tr)) = false.
Proof.
  intros Htr. open_adapters. simpl.
  repeat (split_innermost; simpl);
    rewrite <- ?app_assoc, ?existsb_app, ?Htr; reflexivity.
Qed.

(** X9: a provider call that completes without text ([null], or the
    empty text) ends the request with the generation failure.  The write
    of the completion to the response log and the extraction are not
    reached: what the adapter has logged before it returned (its time
    line and, for OpenAI and Anthropic, the response of the SDK) is
    followed by the generation-time line and by the error
    [No response from model], and the log has no completion line. *)
Theorem no_text_no_report (env : Env) (b : Body) (articles : list Article)
  (response : option string) (tr : list Event) :
  rate_limit_passes env = true ->
  checkCatalog env (selector b) = None ->
  selectedResults b = Some articles ->
  dispatch env (request_prompt articles b) (selector_model (selector b))
    (rate_limit_trace env) = (Normal response, tr) ->
  response = None \/ response = Some EmptyString ->
  handle env (Some b)
  = (Return generation_failed,
     (tr ++ [Logged (ModelGenerationTime (selector_model (selector b)));
             Logged (GenerationError (Error "No response from model"))])%list)
  /\ existsb is_completion_line (snd (handle env (Some b))) = false.
Proof.
  intros Hpass Hcat Hart Hd Hresp.
  assert (H : handle env (Some b)
              = (Return generation_failed,
                 (tr ++ [Logged (ModelGenerationTime
                                   (selector_model (selector b)));
                         Logged (GenerationError
                                   (Error "No response from model"))])%list)).
  { destruct (handle_outcome env (Some b)) as (r & tr' & H & Hout).
    rewrite H.
    inversion Hout; subst; clear Hout; try limiter_contradiction;
      try congruence.
    all: match goal with
         | Ha : selectedResults _ = Some ?a |- _ =>
             rewrite Hart in Ha; injection Ha as Ha; subst a
         end.
    all: match goal with
         | Hd' : dispatch _ _ _ _ = _ |- _ =>
             rewrite Hd in Hd'; try discriminate Hd'; injection Hd' as Hc Htr
         end.
    - subst tr. rewrite <- app_assoc. reflexivity.
    - destruct Hresp as [-> | ->]; discriminate Hc. }
  split; [exact H|].
  rewrite H. simpl. rewrite existsb_app. simpl. rewrite orb_false_r.
  change tr with (snd (Normal response, tr)). rewrite <- Hd.
  apply dispatch_no_completion_line.
  unfold rate_limit_trace. destruct (rateLimits_enabled (CONFIG env));
    reflexivity.
Qed.

Lemma no_text_no_report_witness :
  handle (silent_world false)
    (Some (Sample.request [] (Some "p") (Some "openai__gpt-4o")))
  = (Return generation_failed,
     ([ OpenAICalled "gpt-4o" (generateSystemPrompt [] "p");
        Logged (OpenAITime "gpt-4o");
        Logged SdkResponse ]
      ++ [Logged (ModelGenerationTime
                    (selector_model
                       (selector (Sample.request [] (Some "p")
                                    (Some "openai__gpt-4o")))));
          Logged (GenerationError (Error "No response from model"))])%list)
  /\ existsb is_completion_line
       (snd (handle (silent_world false)
               (Some (Sample.request [] (Some "p") (Some "openai__gpt-4o")))))
     = false.
Proof.
  apply (no_text_no_report (silent_world false)
           (Sample.request [] (Some "p") (Some "openai__gpt-4o")) [] None);
    try (vm_compute; reflexivity).
  left. reflexivity.
Defined.

(** ** The sources of the request *)

(** A request has one outcome. *)
Lemma Outcome_functional (env : Env) (request : Request)
  (r r' : Response) (tr tr' : list Event) :
  Outcome env request r tr -> Outcome env request r' tr' ->
  r = r' /\ tr = tr'.
Proof.
  intros H H'.
  inversion H; subst; clear H; inversion H'; subst; clear H';
    try (split; reflexivity); try limiter_contradiction; try congruence.
  all: try (split; congruence).
  all: match goal with
       | Ha : selectedResults ?b = Some ?a,
         Ha' : selectedResults ?b = Some ?a' |- _ =>
           rewrite Ha in Ha'; injection Ha' as Ha'; subst
       end.
  all: match goal with
       | H1 : dispatch ?e ?p ?m ?t = _, H2 : dispatch ?e ?p ?m ?t = _ |- _ =>
           rewrite H1 in H2; try discriminate H2; injection H2; intros; subst
       end.
  all: repeat match goal with
              | Hevs : (?l ++ _)%list = (?l ++ _)%list |- _ =>
                  apply app_inv_head in Hevs; subst
              end.
  all: try (split; reflexivity).
  all: match goal with
       | Hr : Some (String _ _) = None \/ _ |- _ =>
           destruct Hr; discriminate
       end.
Qed.

(** Every rule of [Outcome] tells what the handler does. *)
Lemma Outcome_handle (env : Env) (request : Request) (r : Response)
  (tr : list Event) :
  Outcome env request r tr -> handle env request = (Return r, tr).
Proof.
  intros H. destruct (handle_outcome env request) as (r' & tr' & H' & Hout).
  destruct (Outcome_functional _ _ _ _ _ _ H Hout) as [-> ->]. exact H'.
Qed.

(** X10: the sources of a request take no part in the generation: with
    other sources the request leaves the same trace (the same provider
    call with the same prompt), gets a response of the same status, and
    gets the same response when that is an error. *)
Theorem provenance_opaque (env : Env) (b : Body) (s : option json) :
  exists r r' tr,
    handle env (Some b) = (Return r, tr) /\
    handle env (Some (with_provenance s b)) = (Return r', tr) /\
    status r' = status r /\
    (status r <> 200 -> r' = r).
Proof.
  destruct (handle_outcome env (Some b)) as (r & tr & H & Hout).
  exists r.
  inversion Hout as [ | b0 Hen Hlim | b0 Hen Hlim | b0 failure Hpass Hcat
                    | b0 Hpass Hcat Hart
                    | b0 articles e evs Hpass Hcat Hart Hd Hrun
                    | b0 articles response evs Hpass Hcat Hart Hd Hrun Hresp
                    | b0 articles c raw evs Hpass Hcat Hart Hd Hrun ];
    subst.
  - exists generation_failed. eexists. split; [exact H|].
    split; [|split; [reflexivity|reflexivity]].
    apply Outcome_handle. apply out_limiter_error; assumption.
  - exists rate_limited. eexists. split; [exact H|].
    split; [|split; [reflexivity|reflexivity]].
    apply Outcome_handle. apply out_rate_limited; assumption.
  - exists r. eexists. split; [exact H|].
    split; [|split; [reflexivity|reflexivity]].
    apply Outcome_handle. apply out_catalog; assumption.
  - exists generation_failed. eexists. split; [exact H|].
    split; [|split; [reflexivity|reflexivity]].
    apply Outcome_handle. apply out_no_articles; assumption.
  - exists generation_failed. eexists. split; [exact H|].
    split; [|split; [reflexivity|reflexivity]].
    apply Outcome_handle.
    exact (out_dispatch_failed env (with_provenance s b) articles e evs
             Hpass Hcat Hart Hd Hrun).
  - exists generation_failed. eexists. split; [exact H|].
    split; [|split; [reflexivity|reflexivity]].
    apply Outcome_handle.
    exact (out_no_response env (with_provenance s b) articles response evs
             Hpass Hcat Hart Hd Hrun Hresp).
  - exists (extraction_response s (extract (String c raw))). eexists.
    split; [exact H|]. split.
    + apply Outcome_handle.
      exact (out_extraction env (with_provenance s b) articles c raw evs
               Hpass Hcat Hart Hd Hrun).
    + destruct (extract (String c raw)) as [[]| |]; split;
        try reflexivity; intros Hne; try reflexivity;
        exfalso; apply Hne; reflexivity.
Qed.

(** * Properties of the search route *)

Ltac open_search :=
  unfold Search.handle, Search.run, Search.POST, Search.logToFile,
    appendFileSync, writable, Stmt.try_catch,
    Stmt.bind, Stmt.await, Stmt.ret, Stmt.emit, Stmt.throw, Stmt.return_.

Ltac search_cases := open_search; simpl; repeat (split_innermost; simpl).

(** X11: [getFreshness] gives [Day], [Week], [Month] and [Year] for the
    time filters [24h], [week], [month] and [year], each for that filter
    only, and the empty text for every other filter, [all] included. *)
Theorem getFreshness_filters (timeFilter : string) :
  (Search.getFreshness timeFilter = "Day" <-> timeFilter = "24h") /\
  (Search.getFreshness timeFilter = "Week" <-> timeFilter = "week") /\
  (Search.getFreshness timeFilter = "Month" <-> timeFilter = "month") /\
  (Search.getFreshness timeFilter = "Year" <-> timeFilter = "year") /\
  (Search.getFreshness timeFilter = EmptyString <->
   ~ In timeFilter ["24h"; "week"; "month"; "year"]).
Proof.
  unfold Search.getFreshness.
  destruct (String.eqb_spec timeFilter "24h") as [->|H1];
    [repeat split; intros H; try discriminate H; try reflexivity;
     exfalso; apply H; simpl; auto|].
  destruct (String.eqb_spec timeFilter "week") as [->|H2];
    [repeat split; intros H; try discriminate H; try reflexivity;
     exfalso; apply H; simpl; auto|].
  destruct (String.eqb_spec timeFilter "month") as [->|H3];
    [repeat split; intros H; try discriminate H; try reflexivity;
     exfalso; apply H; simpl; auto|].
  destruct (String.eqb_spec timeFilter "year") as [->|H4];
    [repeat split; intros H; try discriminate H; try reflexivity;
     exfalso; apply H; simpl; auto 6|].
  repeat split; intros H; try discriminate H; try contradiction;
    try reflexivity.
  simpl. intros [E|[E|[E|[E|[]]]]]; congruence.
Qed.

(** X12: on any file system the search route ends with a response, or
    with the error thrown by the append of its [catch], which stands
    outside any [try]; when the log file can be written it always ends
    with a response.  A response has status 200, 400, 429 or 500; the
    search API is called at most once and the limiter at most once, and a
    response with status 200 stands for exactly one call. *)
Theorem search_responses :
  (forall (fs : FileSystem Search.Event Search.LogLine) (env : Search.Env)
          (request : Search.Request),
      exists c tr,
        Search.run fs env request = (c, tr) /\
        Search.fetches tr <= 1 /\
        Search.limiter_calls tr <= 1 /\
        match c with
        | Normal _ => False
        | Return r =>
            (status r = 200 \/ status r = 400 \/ status r = 429 \/
             status r = 500) /\
            (status r = 200 -> Search.fetches tr = 1)
        | Throw e =>
            exists error,
              fs "./logs/search_timing_logs.txt" (Search.SearchError error) tr
              = Some e
        end) /\
  (forall (env : Search.Env) (request : Search.Request),
      exists r tr, Search.handle env request = (Return r, tr)).
Proof.
  split.
  - intros fs env request.
    search_cases; do 2 eexists; (split; [reflexivity|]);
      unfold Search.fetches, Search.limiter_calls; simpl;
      repeat split; eauto; try lia; try discriminate.
  - intros env request.
    search_cases; do 2 eexists; reflexivity.
Qed.

#[local] Arguments Search.search_params : simpl never.

Lemma search_params_spec (env : Search.Env) (q timeFilter : string) :
  Search.search_params env q timeFilter
  = ([ ("q", q);
       ("count", Search.resultsPerPage env);
       ("mkt", Search.market env);
       ("safeSearch", Search.safeSearch env);
       ("textFormat", "HTML");
       ("textDecorations", "true") ]
     ++ if existsb (String.eqb timeFilter) ["24h"; "week"; "month"; "year"]
        then [("freshness", Search.getFreshness timeFilter)]
        else [])%list.
Proof.
  unfold Search.search_params, Search.getFreshness. simpl.
  destruct (String.eqb timeFilter "24h"); [reflexivity|].
  destruct (String.eqb timeFilter "week"); [reflexivity|].
  destruct (String.eqb timeFilter "month"); [reflexivity|].
  destruct (String.eqb timeFilter "year"); reflexivity.
Qed.

Lemma search_fetch_inv (env : Search.Env) (b : Search.Body)
  (params : list (string * string)) (key : string) :
  In (Search.Fetched params key) (snd (Search.handle env (Some b))) ->
  exists q,
    Search.query b = Some q /\
    q <> EmptyString /\
    Search.AZURE_SUB_KEY env = Some key /\
    key <> EmptyString /\
    (Search.rateLimits_enabled env = true ->
     Search.searchRatelimit_limit env q = Some true) /\
    params = Search.search_params env q (search_filter b).
Proof.
  open_search. simpl. fold (search_filter b).
  repeat (split_innermost; simpl);
    intros Hin;
    repeat (destruct Hin as [Hin|Hin]; try discriminate Hin);
    try contradiction;
    injection Hin as <- <-;
    eexists; (split; [reflexivity|]);
    (split; [discriminate|]);
    (split; [reflexivity|]);
    (split; [discriminate|]);
    (split; [intros; congruence|]);
    reflexivity.
Qed.

(** X13: the search API is called only for a request with a query that
    is not empty, with a configured subscription key, and after the rate
    limiter, when enabled, has let the query pass.  The call carries the
    query, the three configured values, [textFormat] and
    [textDecorations], and a [freshness] for the four time filters of
    [getFreshness] only. *)
Theorem search_fetch_guarded (env : Search.Env) (b : Search.Body)
  (params : list (string * string)) (key : string) :
  In (Search.Fetched params key) (snd (Search.handle env (Some b))) ->
  exists q,
    Search.query b = Some q /\
    q <> EmptyString /\
    Search.AZURE_SUB_KEY env = Some key /\
    key <> EmptyString /\
    (Search.rateLimits_enabled env = true ->
     Search.searchRatelimit_limit env q = Some true) /\
    params
    = ([ ("q", q);
         ("count", Search.resultsPerPage env);
         ("mkt", Search.market env);
         ("safeSearch", Search.safeSearch env);
         ("textFormat", "HTML");
         ("textDecorations", "true") ]
       ++ if existsb (String.eqb (search_filter b))
               ["24h"; "week"; "month"; "year"]
          then [("freshness", Search.getFreshness (search_filter b))]
          else [])%list.
Proof.
  intros Hin.
  destruct (search_fetch_inv env b params key Hin)
    as (q & Hq & Hne & Hkey & Hkne & Hlim & ->).
  exists q. rewrite <- search_params_spec. auto 7.
Qed.

Lemma search_fetch_guarded_witness :
  exists q,
    Search.query {| Search.query := Some "rocq";
                    Search.timeFilter := Some "week" |} = Some q /\
    q <> EmptyString /\
    Search.AZURE_SUB_KEY
      (search_env true (Some true) (Some "k") (Search.Answered 200 (Some JNull)))
    = Some "k" /\
    "k" <> EmptyString /\
    (Search.rateLimits_enabled
       (search_env true (Some true) (Some "k")
          (Search.Answered 200 (Some JNull))) = true ->
     Search.searchRatelimit_limit
       (search_env true (Some true) (Some "k")
          (Search.Answered 200 (Some JNull))) q = Some true) /\
    [ ("q", "rocq"); ("count", "10"); ("mkt", "en-US");
      ("safeSearch", "Moderate"); ("textFormat", "HTML");
      ("textDecorations", "true"); ("freshness", "Week") ]
    = ([ ("q", q);
         ("count",
          Search.resultsPerPage
            (search_env true (Some true) (Some "k")
               (Search.Answered 200 (Some JNull))));
         ("mkt",
          Search.market
            (search_env true (Some true) (Some "k")
               (Search.Answered 200 (Some JNull))));
         ("safeSearch",
          Search.safeSearch
            (search_env true (Some true) (Some "k")
               (Search.Answered 200 (Some JNull))));
         ("textFormat", "HTML");
         ("textDecorations", "true") ]
       ++ if existsb
               (String.eqb
                  (search_filter {| Search.query := Some "rocq";
                                    Search.timeFilter := Some "week" |}))
               ["24h"; "week"; "month"; "year"]
          then [("freshness",
                 Search.getFreshness
                   (search_filter {| Search.query := Some "rocq";
                                     Search.timeFilter := Some "week" |}))]
          else [])%list.
Proof.
  apply (search_fetch_guarded
           (search_env true (Some true) (Some "k")
              (Search.Answered 200 (Some JNull)))
           {| Search.query := Some "rocq"; Search.timeFilter := Some "week" |}
           [ ("q", "rocq"); ("count", "10"); ("mkt", "en-US");
             ("safeSearch", "Moderate"); ("textFormat", "HTML");
             ("textDecorations", "true"); ("freshness", "Week") ]
           "k").
  vm_compute. right. right. left. reflexivity.
Defined.



(** * Properties of the content route *)

Ltac open_content :=
  unfold FetchContent.handle, FetchContent.run, FetchContent.POST,
    FetchContent.json_response, FetchContent.logTimeToFile,
    appendFileSync, writable, Stmt.try_catch, Stmt.bind, Stmt.await,
    Stmt.ret, Stmt.emit, Stmt.throw, Stmt.return_.

Ltac content_cases := open_content; simpl; repeat (split_innermost; simpl).

(** X15: on any file system the content route ends with a response, or
    with the error thrown by the append of its outer [catch], which stands
    outside any [try]; when the log file can be written it always ends
    with a response.  The reader service is called at most once and the
    limiter at most once; a response with status 200 stands for exactly
    one call; and the status of every response is one a response with a
    body can have. *)
Theorem content_responses :
  (forall (fs : FileSystem FetchContent.Event FetchContent.LogLine)
          (env : FetchContent.Env) (request : FetchContent.Request),
      exists c tr,
        FetchContent.run fs env request = (c, tr) /\
        FetchContent.fetches tr <= 1 /\
        FetchContent.limiter_calls tr <= 1 /\
        match c with
        | Normal _ => False
        | Return r =>
            (status r = 200 -> FetchContent.fetches tr = 1) /\
            FetchContent.can_carry_body (status r) = true
        | Throw e =>
            exists error,
              fs "./logs/fetch_timing_logs.txt"
                (FetchContent.RequestError error) tr
              = Some e
        end) /\
  (forall (env : FetchContent.Env) (request : FetchContent.Request),
      exists r tr, FetchContent.handle env request = (Return r, tr)).
Proof.
  split.
  - intros fs env request.
    content_cases; do 2 eexists; (split; [reflexivity|]);
      unfold FetchContent.fetches, FetchContent.limiter_calls; simpl;
      repeat split; eauto; try lia; try discriminate.
  - intros env request.
    content_cases; do 2 eexists; reflexivity.
Qed.

(** X16: the reader service is called only for a request with an address
    that is not empty, after the rate limiter, when enabled, has let the
    address pass; it is called at [https://r.jina.ai/] followed by the
    encoded address. *)
Theorem content_fetch_guarded (env : FetchContent.Env)
  (b : FetchContent.Body) (address : string) :
  In (FetchContent.Fetched address)
    (snd (FetchContent.handle env (Some b))) ->
  exists url encoded,
    FetchContent.url b = Some url /\
    url <> EmptyString /\
    content_passes env url = true /\
    FetchContent.encodeURIComponent env url = Some encoded /\
    address = "https://r.jina.ai/" +:+ encoded.
Proof.
  unfold content_passes. content_cases;
    intros Hin;
    repeat (destruct Hin as [Hin|Hin]; try discriminate Hin);
    try contradiction;
    injection Hin as <-;
    do 2 eexists; (split; [reflexivity|]);
    (split; [discriminate|]);
    repeat match goal with
           | H : _ = _ |- _ => rewrite H
           end;
    auto.
Qed.

Lemma content_fetch_guarded_witness :
  exists url encoded,
    FetchContent.url {| FetchContent.url := Some "a.example" |} = Some url /\
    url <> EmptyString /\
    content_passes
      (content_env true (Some true) (FetchContent.Answered 404 None)) url
    = true /\
    FetchContent.encodeURIComponent
      (content_env true (Some true) (FetchContent.Answered 404 None)) url
    = Some encoded /\
    "https://r.jina.ai/a.example" = "https://r.jina.ai/" +:+ encoded.
Proof.
  apply (content_fetch_guarded
           (content_env true (Some true) (FetchContent.Answered 404 None))
           {| FetchContent.url := Some "a.example" |}
           "https://r.jina.ai/a.example").
  vm_compute. right. left. reflexivity.
Defined.





(** * Properties across the routes *)


(** X20: when the call to the rate limiter itself fails, each route
    answers with the error of its own outer handler, after logging the
    failure, and calls nothing else: the report route with
    [Failed to generate report] and status 500, the search route with
    [Failed to fetch search results] and status 500, and the content route
    with [Invalid request] and status 400. *)
Theorem limiter_outage_by_route :
  (forall (env : Env) (b : Body),
      rateLimits_enabled (CONFIG env) = true ->
      ratelimit_limit env = None ->
      handle env (Some b)
      = (Return (error_response "Failed to generate report" 500),
         [RateLimitConsulted; Logged (GenerationError LimiterError)])) /\
  (forall (env : Search.Env) (b : Search.Body) (c : ascii) (q : string),
      Search.query b = Some (String c q) ->
      Search.rateLimits_enabled env = true ->
      Search.searchRatelimit_limit env (String c q) = None ->
      Search.handle env (Some b)
      = (Return (error_response "Failed to fetch search results" 500),
         [Search.LimiterConsulted (String c q);
          Search.Logged (Search.SearchError LimiterError)])) /\
  (forall (env : FetchContent.Env) (b : FetchContent.Body) (c : ascii)
          (u : string),
      FetchContent.url b = Some (String c u) ->
      FetchContent.rateLimits_enabled env = true ->
      FetchContent.fetchContentRatelimit_limit env (String c u) = None ->
      FetchContent.handle env (Some b)
      = (Return (error_response "Invalid request" 400),
         [FetchContent.LimiterConsulted (String c u);
          FetchContent.Logged (FetchContent.RequestError LimiterError)])).
Proof.
  split; [|split].
  - intros env b Hen Hl. apply Outcome_handle.
    apply out_limiter_error; assumption.
  - intros env b c q Hq Hen Hl. open_search. simpl.
    rewrite Hq, Hen; simpl. rewrite Hl. reflexivity.
  - intros env b c u Hu Hen Hl. open_content. simpl.
    rewrite Hu, Hen; simpl. rewrite Hl. reflexivity.
Qed.

(** X21: the search and content routes consult the rate limiter only when
    rate limits are enabled, and with the query, respectively the address,
    of the request as the key, which is then present and not empty. *)
Theorem limiter_keyed_by_input :
  (forall (env : Search.Env) (b : Search.Body) (key : string),
      In (Search.LimiterConsulted key) (snd (Search.handle env (Some b))) ->
      Search.rateLimits_enabled env = true /\
      Search.query b = Some key /\ key <> EmptyString) /\
  (forall (env : FetchContent.Env) (b : FetchContent.Body) (key : string),
      In (FetchContent.LimiterConsulted key)
        (snd (FetchContent.handle env (Some b))) ->
      FetchContent.rateLimits_enabled env = true /\
      FetchContent.url b = Some key /\ key <> EmptyString).
Proof.
  split.
  - intros env b key. search_cases; intros Hin;
      repeat (destruct Hin as [Hin|Hin]; try discriminate Hin);
      try contradiction;
      injection Hin as <-; repeat split; auto; discriminate.
  - intros env b key. content_cases; intros Hin;
      repeat (destruct Hin as [Hin|Hin]; try discriminate Hin);
      try contradiction;
      injection Hin as <-; repeat split; auto; discriminate.
Qed.

(** X22: a request whose body has no query, or an empty one, is answered
    by the search route with [Query parameter is required] and status 400,
    and one with no address, or an empty one, by the content route with
    [URL is required] and status 400; in both routes this check comes
    before everything else, so nothing is consulted, called or logged,
    whatever the configuration. *)
Theorem required_field_first :
  (forall (env : Search.Env) (b : Search.Body),
      Search.query b = None \/ Search.query b = Some EmptyString ->
      Search.handle env (Some b)
      = (Return (error_response "Query parameter is required" 400), [])) /\
  (forall (env : FetchContent.Env) (b : FetchContent.Body),
      FetchContent.url b = None \/ FetchContent.url b = Some EmptyString ->
      FetchContent.handle env (Some b)
      = (Return (error_response "URL is required" 400), [])).
Proof.
  split.
  - intros env b [H|H]; open_search; simpl; rewrite H; reflexivity.
  - intros env b [H|H]; open_content; simpl; rewrite H; reflexivity.
Qed.
